(** * Command agent: the rule-based interpreter of [CommandAgent.tsx]

    A shallow embedding of [interpretCommand] and of the helpers it calls
    ([nextHeading], [moveForward], [clampEnergy], [formatState],
    [baseState]), together with the string primitives of the JavaScript
    runtime that the interpreter relies on.

    Numbers are modelled as [Z]: every number the interpreter stores is an
    integer ([parseInt] results, sums and differences of integers, [min] and
    [max] of integers).  Strings are sequences of UTF-16 code units. *)

From Stdlib Require Import ZArith NArith List Bool Lia.
From Stdlib Require Import Strings.String Strings.Ascii Numbers.DecimalString.
From Stdlib Require Numbers.DecimalZ.
Import ListNotations.

Local Open Scope N_scope.

(* ===================================================================== *)
(** ** JavaScript strings *)
(* ===================================================================== *)

Module JS.

(** A string is the list of its UTF-16 code units. *)
Definition jsstring := list N.

(** ASCII literal text. *)
Definition str (s : string) : jsstring :=
  map N_of_ascii (list_ascii_of_string s).
Arguments str s%_string.

(** Code units of the non-ASCII characters of the response literals. *)
Definition ldquo : N := 8220.   (* U+201C *)
Definition rdquo : N := 8221.   (* U+201D *)
Definition middot : N := 183.   (* U+00B7 *)
Definition times : N := 215.    (* U+00D7 *)
Definition degree : N := 176.   (* U+00B0 *)
Definition dquote : N := 34.    (* the ASCII double quote *)

(** [a === b] on strings. *)
Fixpoint eqs (a b : jsstring) : bool :=
  match a, b with
  | [], [] => true
  | c :: a', d :: b' => (c =? d) && eqs a' b'
  | _, _ => false
  end.

(** [!s] on a string: only the empty string is falsy. *)
Definition isEmpty (s : jsstring) : bool :=
  match s with [] => true | _ :: _ => false end.

(** [list.includes(s)] on an array of strings. *)
Definition includesStr (l : list jsstring) (s : jsstring) : bool :=
  existsb (eqs s) l.

(** WhiteSpace and LineTerminator code units, the set stripped by
    [String.prototype.trim] and skipped by [parseInt]. *)
Definition isWhiteSpace (c : N) : bool :=
  ((9 <=? c) && (c <=? 13)) || (c =? 32) || (c =? 160) || (c =? 5760)
  || ((8192 <=? c) && (c <=? 8202)) || (c =? 8232) || (c =? 8233)
  || (c =? 8239) || (c =? 8287) || (c =? 12288) || (c =? 65279).

Fixpoint trimStart (s : jsstring) : jsstring :=
  match s with
  | [] => []
  | c :: t => if isWhiteSpace c then trimStart t else s
  end.

Fixpoint trimEnd (s : jsstring) : jsstring :=
  match s with
  | [] => []
  | c :: t =>
      match trimEnd t with
      | [] => if isWhiteSpace c then [] else [c]
      | r => c :: r
      end
  end.

Definition trim (s : jsstring) : jsstring := trimEnd (trimStart s).

(** Lower-casing of one code unit.  Basic Latin and the Latin-1 Supplement
    follow the Unicode tables.  Above U+00FF two code points are modelled:
    U+0130, the only one whose lower case is longer than itself (i followed
    by U+0307), and U+212A, the only one whose lower case is an ASCII letter
    (k).  Every other unit above U+00FF is kept as it is: the runtime maps it
    to one unit that is not ASCII, and the interpreter compares the
    normalized input with ASCII text only, so neither its tests nor the
    indices it computes can tell the difference. *)
Definition toLowerUnit (c : N) : jsstring :=
  if (65 <=? c) && (c <=? 90) then [c + 32]
  else if (192 <=? c) && (c <=? 222) && negb (c =? 215) then [c + 32]
  else if c =? 304 then [105; 775]
  else if c =? 8490 then [107]
  else [c].

Definition toLowerCase (s : jsstring) : jsstring := flat_map toLowerUnit s.

(** Upper-casing, used on heading names only.  Basic Latin and Latin-1
    Supplement follow the Unicode tables. *)
Definition toUpperUnit (c : N) : jsstring :=
  if (97 <=? c) && (c <=? 122) then [c - 32]
  else if (224 <=? c) && (c <=? 254) && negb (c =? 247) then [c - 32]
  else if c =? 223 then [83; 83]
  else if c =? 181 then [924]
  else if c =? 255 then [376]
  else [c].

Definition toUpperCase (s : jsstring) : jsstring := flat_map toUpperUnit s.

Fixpoint startsWith (s p : jsstring) {struct p} : bool :=
  match p with
  | [] => true
  | d :: p' =>
      match s with
      | [] => false
      | c :: s' => (c =? d) && startsWith s' p'
      end
  end.

(** Position of the first occurrence of [p] in [s]. *)
Fixpoint indexOfNat (s p : jsstring) : option nat :=
  if startsWith s p then Some O
  else match s with
       | [] => None
       | _ :: t => option_map S (indexOfNat t p)
       end.

(** [s.indexOf(p)], with -1 when [p] does not occur. *)
Definition indexOf (s p : jsstring) : Z :=
  match indexOfNat s p with
  | Some i => Z.of_nat i
  | None => (-1)%Z
  end.

(** [s.includes(p)] on strings. *)
Definition includes (s p : jsstring) : bool :=
  match indexOfNat s p with Some _ => true | None => false end.

(** [s.slice(start)]: a negative start counts from the end. *)
Definition slice {A : Type} (s : list A) (start : Z) : list A :=
  let len := Z.of_nat (List.length s) in
  let from := if (start <? 0)%Z then Z.max (len + start) 0 else Z.min start len in
  skipn (Z.to_nat from) s.

(** [s.replace(p, r)] with a string pattern: the first occurrence only. *)
Definition replace (s p r : jsstring) : jsstring :=
  match indexOfNat s p with
  | None => s
  | Some i => firstn i s ++ r ++ skipn (i + List.length p) s
  end.

(** [s.split(sep)] for a separator of one code unit. *)
Fixpoint split (sep : N) (s : jsstring) : list jsstring :=
  match s with
  | [] => [[]]
  | c :: t =>
      if c =? sep then [] :: split sep t
      else match split sep t with
           | p :: ps => (c :: p) :: ps
           | [] => [[c]]
           end
  end.

Definition isDigit (c : N) : bool := (48 <=? c) && (c <=? 57).

Fixpoint digitsPrefix (s : jsstring) : jsstring :=
  match s with
  | [] => []
  | c :: t => if isDigit c then c :: digitsPrefix t else []
  end.

Definition digitsValue (ds : jsstring) : Z :=
  fold_left (fun acc c => (10 * acc + Z.of_N (c - 48))%Z) ds 0%Z.

(** [Number.parseInt(s, 10)]: leading white space is skipped, one sign is
    read, then the longest run of decimal digits; whatever follows is
    ignored.  [None] is NaN.  The value is the exact integer: the runtime
    rounds beyond 2^53, which no comparison of the interpreter (against 0,
    7 and 100) can observe. *)
Definition parseInt (s : jsstring) : option Z :=
  let s1 := trimStart s in
  let '(sign, s2) :=
    match s1 with
    | c :: t => if c =? 45 then ((-1)%Z, t)
                else if c =? 43 then (1%Z, t)
                else (1%Z, s1)
    | [] => (1%Z, s1)
    end in
  match digitsPrefix s2 with
  | [] => None
  | ds => Some (sign * digitsValue ds)%Z
  end.

(** Template-literal rendering of an integer (the decimal digits, which is
    what the runtime prints below 10^21; a negative zero prints as 0 too). *)
Definition numToString (z : Z) : jsstring :=
  str (NilEmpty.string_of_int (Z.to_int z)).

End JS.

Import JS.
Local Open Scope Z_scope.

(* ===================================================================== *)
(** ** The agent: state, headings, movement *)
(* ===================================================================== *)

Inductive Heading := north | east | south | west.

(** The argument type ["left" | "right"] of [nextHeading]. *)
Inductive TurnDirection := Left | Right.

Record AgentState := {
  x : Z;
  y : Z;
  heading : Heading;
  energy : Z;
  inventory : list jsstring;
  notes : list jsstring
}.

Definition GRID_SIZE : Z := 7.

Definition headingOrder : list Heading := [north; east; south; west].

Definition heading_eqb (a b : Heading) : bool :=
  match a, b with
  | north, north | east, east | south, south | west, west => true
  | _, _ => false
  end.

(** [array.indexOf(h)] on an array of headings. *)
Fixpoint indexOfHeading (l : list Heading) (h : Heading) : Z :=
  match l with
  | [] => -1
  | h' :: t =>
      if heading_eqb h' h then 0
      else let i := indexOfHeading t h in
           if i <? 0 then -1 else i + 1
  end.

Definition nextHeading (current : Heading) (direction : TurnDirection) : Heading :=
  let index := indexOfHeading headingOrder current in
  let offset := match direction with Left => -1 | Right => 1 end in
  let nextIndex :=
    Z.rem (index + offset + Z.of_nat (List.length headingOrder))
          (Z.of_nat (List.length headingOrder)) in
  nth (Z.to_nat nextIndex) headingOrder north.

(** The string value of a heading. *)
Definition headingName (h : Heading) : jsstring :=
  match h with
  | north => str "north"
  | east => str "east"
  | south => str "south"
  | west => str "west"
  end.

(** The coordinates one step ahead, saturating at the border of the grid. *)
Definition moveForward (s : AgentState) : Z * Z :=
  match heading s with
  | north => (x s, Z.min (GRID_SIZE - 1) (y s + 1))
  | south => (x s, Z.max 0 (y s - 1))
  | east => (Z.min (GRID_SIZE - 1) (x s + 1), y s)
  | west => (Z.max 0 (x s - 1), y s)
  end.

Definition baseState : AgentState :=
  {| x := GRID_SIZE / 2;
     y := GRID_SIZE / 2;
     heading := north;
     energy := 80;
     inventory := [];
     notes := [str "Calibrated and ready."] |}.

Definition clampEnergy (value : Z) : Z := Z.max 0 (Z.min 100 value).

Definition formatState (state : AgentState) : jsstring :=
  str "Position (" ++ numToString (x state) ++ str ", " ++ numToString (y state)
  ++ str ") " ++ [middot] ++ str " Heading " ++ toUpperCase (headingName (heading state))
  ++ str " " ++ [middot] ++ str " Energy " ++ numToString (energy state) ++ str "%".

Record CommandResult := {
  response : jsstring;
  nextState : AgentState
}.

(** [{ ...current, heading: h }], the argument of [moveForward] in the
    directional branches. *)
Definition withHeading (current : AgentState) (h : Heading) : AgentState :=
  {| x := x current; y := y current; heading := h; energy := energy current;
     inventory := inventory current; notes := notes current |}.

(* ===================================================================== *)
(** ** The interpreter *)
(* ===================================================================== *)

Definition interpretCommand (input : jsstring) (current : AgentState) : CommandResult :=
  let normalized := toLowerCase (trim input) in
  if isEmpty normalized then
    {| response := str "Awaiting directives. Try something like " ++ [ldquo]
                   ++ str "move north" ++ [rdquo] ++ str " or " ++ [ldquo]
                   ++ str "scan perimeter" ++ [rdquo] ++ str ".";
       nextState := current |}
  else if includesStr [str "help"; str "commands"; str "manual"] normalized then
    {| response := str "Available directives: move <north|south|east|west|forward>, turn <left|right|around>, scan, rest, status, reset, collect <item>, drop <item>, note <text>, energy <value>, path <x,y>. All commands are case-insensitive.";
       nextState := current |}
  else if includesStr [str "status"; str "report"; str "state"] normalized then
    {| response := formatState current; nextState := current |}
  else if startsWith normalized (str "note ") then
    let message := trim (slice input (indexOf (toLowerCase input) (str "note") + 4)) in
    if isEmpty message then
      {| response := str "Please provide note content after the command (e.g. "
                     ++ [ldquo] ++ str "note secure perimeter" ++ [rdquo] ++ str ").";
         nextState := current |}
    else
      {| response := str "Noted: " ++ message;
         nextState := {| x := x current; y := y current; heading := heading current;
                         energy := energy current; inventory := inventory current;
                         notes := notes current ++ [message] |} |}
  else if startsWith normalized (str "collect ") then
    let item := trim (slice input (indexOf (toLowerCase input) (str "collect") + 7)) in
    if isEmpty item then
      {| response := str "Specify what to collect (e.g. " ++ [ldquo]
                     ++ str "collect sample" ++ [rdquo] ++ str ").";
         nextState := current |}
    else if includesStr (inventory current) item then
      {| response := str "Item " ++ [dquote] ++ item ++ [dquote] ++ str " is already secured.";
         nextState := current |}
    else
      {| response := str "Collected " ++ [dquote] ++ item ++ [dquote]
                     ++ str " and stored in inventory.";
         nextState := {| x := x current; y := y current; heading := heading current;
                         energy := energy current;
                         inventory := inventory current ++ [item];
                         notes := notes current |} |}
  else if startsWith normalized (str "drop ") then
    let item := trim (slice input (indexOf (toLowerCase input) (str "drop") + 4)) in
    if isEmpty item then
      {| response := str "Specify what to drop (e.g. " ++ [ldquo]
                     ++ str "drop sample" ++ [rdquo] ++ str ").";
         nextState := current |}
    else if negb (includesStr (inventory current) item) then
      {| response := str "Inventory does not contain " ++ [dquote] ++ item ++ [dquote]
                     ++ str ".";
         nextState := current |}
    else
      {| response := str "Released " ++ [dquote] ++ item ++ [dquote]
                     ++ str " from inventory.";
         nextState := {| x := x current; y := y current; heading := heading current;
                         energy := energy current;
                         inventory := filter (fun entry => negb (eqs entry item))
                                             (inventory current);
                         notes := notes current |} |}
  else if startsWith normalized (str "energy ") then
    match parseInt (trim (replace normalized (str "energy") [])) with
    | None =>
        {| response := str "Provide an energy value between 0 and 100 (e.g. "
                       ++ [ldquo] ++ str "energy 65" ++ [rdquo] ++ str ").";
           nextState := current |}
    | Some value =>
        {| response := str "Energy recalibrated to " ++ numToString (clampEnergy value)
                       ++ str "%.";
           nextState := {| x := x current; y := y current; heading := heading current;
                           energy := clampEnergy value;
                           inventory := inventory current; notes := notes current |} |}
    end
  else if startsWith normalized (str "path ") then
    match split 44 (trim (replace normalized (str "path") [])) with
    | [c0; c1] =>
        match parseInt (trim c0), parseInt (trim c1) with
        | Some targetX, Some targetY =>
            if (targetX <? 0) || (targetY <? 0)
               || (targetX >=? GRID_SIZE) || (targetY >=? GRID_SIZE) then
              {| response := str "Coordinates out of bounds. The grid is "
                             ++ numToString GRID_SIZE ++ [times] ++ numToString GRID_SIZE
                             ++ str ", indexed from (0,0).";
                 nextState := current |}
            else
              {| response := str "Navigated directly to (" ++ numToString targetX
                             ++ str ", " ++ numToString targetY ++ str ").";
                 nextState := {| x := targetX; y := targetY; heading := heading current;
                                 energy := clampEnergy (energy current - 10);
                                 inventory := inventory current;
                                 notes := notes current |} |}
        | _, _ =>
            {| response := str "Coordinates out of bounds. The grid is "
                           ++ numToString GRID_SIZE ++ [times] ++ numToString GRID_SIZE
                           ++ str ", indexed from (0,0).";
               nextState := current |}
        end
    | _ =>
        {| response := str "Use " ++ [ldquo] ++ str "path x,y" ++ [rdquo]
                       ++ str " to teleport the agent within the grid.";
           nextState := current |}
    end
  else if includesStr [str "reset"; str "reboot"; str "init"] normalized then
    {| response := str "Agent reset to baseline configuration.";
       nextState := baseState |}
  else if includesStr [str "rest"; str "recover"; str "recharge"] normalized then
    let restored := clampEnergy (energy current + 15) in
    {| response := str "Resting... Energy now at " ++ numToString restored ++ str "%.";
       nextState := {| x := x current; y := y current; heading := heading current;
                       energy := restored;
                       inventory := inventory current; notes := notes current |} |}
  else if includesStr [str "scan"; str "scan area"; str "scan perimeter"; str "analyze"]
                      normalized then
    let report :=
      str "Scan complete. No threats detected. Notes: "
      ++ (if (Z.of_nat (List.length (notes current)) =? 0) then str "No mission notes."
          else match slice (notes current) (-1) with
               | n :: _ => n
               | [] => str "undefined"
               end) in
    {| response := report;
       nextState := {| x := x current; y := y current; heading := heading current;
                       energy := clampEnergy (energy current - 5);
                       inventory := inventory current; notes := notes current |} |}
  else if startsWith normalized (str "turn ") then
    if includes normalized (str "left") then
      {| response := str "Turned left. Heading "
                     ++ toUpperCase (headingName (nextHeading (heading current) Left))
                     ++ str ".";
         nextState := {| x := x current; y := y current;
                         heading := nextHeading (heading current) Left;
                         energy := clampEnergy (energy current - 2);
                         inventory := inventory current; notes := notes current |} |}
    else if includes normalized (str "right") then
      {| response := str "Turned right. Heading "
                     ++ toUpperCase (headingName (nextHeading (heading current) Right))
                     ++ str ".";
         nextState := {| x := x current; y := y current;
                         heading := nextHeading (heading current) Right;
                         energy := clampEnergy (energy current - 2);
                         inventory := inventory current; notes := notes current |} |}
    else if includes normalized (str "around") then
      let halfway := nextHeading (heading current) Right in
      {| response := str "Executed 180" ++ [degree] ++ str " pivot. Heading "
                     ++ toUpperCase (headingName (nextHeading halfway Right))
                     ++ str ".";
         nextState := {| x := x current; y := y current;
                         heading := nextHeading (nextHeading (heading current) Right) Right;
                         energy := clampEnergy (energy current - 3);
                         inventory := inventory current; notes := notes current |} |}
    else
      {| response := str "Specify turn direction: left, right, or around.";
         nextState := current |}
  else if startsWith normalized (str "move") || includes normalized (str "forward") then
    if includes normalized (str "north") then
      let nextPosition := moveForward (withHeading current north) in
      {| response := str "Advanced north to (" ++ numToString (fst nextPosition)
                     ++ str ", " ++ numToString (snd nextPosition) ++ str ").";
         nextState := {| x := fst nextPosition; y := snd nextPosition; heading := north;
                         energy := clampEnergy (energy current - 6);
                         inventory := inventory current; notes := notes current |} |}
    else if includes normalized (str "south") then
      let nextPosition := moveForward (withHeading current south) in
      {| response := str "Advanced south to (" ++ numToString (fst nextPosition)
                     ++ str ", " ++ numToString (snd nextPosition) ++ str ").";
         nextState := {| x := fst nextPosition; y := snd nextPosition; heading := south;
                         energy := clampEnergy (energy current - 6);
                         inventory := inventory current; notes := notes current |} |}
    else if includes normalized (str "east") then
      let nextPosition := moveForward (withHeading current east) in
      {| response := str "Advanced east to (" ++ numToString (fst nextPosition)
                     ++ str ", " ++ numToString (snd nextPosition) ++ str ").";
         nextState := {| x := fst nextPosition; y := snd nextPosition; heading := east;
                         energy := clampEnergy (energy current - 6);
                         inventory := inventory current; notes := notes current |} |}
    else if includes normalized (str "west") then
      let nextPosition := moveForward (withHeading current west) in
      {| response := str "Advanced west to (" ++ numToString (fst nextPosition)
                     ++ str ", " ++ numToString (snd nextPosition) ++ str ").";
         nextState := {| x := fst nextPosition; y := snd nextPosition; heading := west;
                         energy := clampEnergy (energy current - 6);
                         inventory := inventory current; notes := notes current |} |}
    else
      let nextCoords := moveForward current in
      if (fst nextCoords =? x current) && (snd nextCoords =? y current) then
        {| response := str "Boundary reached. Unable to move further forward.";
           nextState := current |}
      else
        {| response := str "Advanced forward to (" ++ numToString (fst nextCoords)
                       ++ str ", " ++ numToString (snd nextCoords) ++ str ").";
           nextState := {| x := fst nextCoords; y := snd nextCoords;
                           heading := heading current;
                           energy := clampEnergy (energy current - 6);
                           inventory := inventory current; notes := notes current |} |}
  else
    {| response := str "Command not recognized. Request " ++ [ldquo] ++ str "help"
                   ++ [rdquo]
                   ++ str " to review supported directives or provide a more specific instruction.";
       nextState := current |}.

(** The state part of the controller's [handleSubmit]: a blank submission is
    dropped, any other one replaces the state by the interpreter's. *)
Definition handleSubmit (command : jsstring) (agentState : AgentState) : AgentState :=
  if isEmpty (trim command) then agentState
  else nextState (interpretCommand command agentState).

(** A session: the commands submitted one after the other. *)
Definition runSession (commands : list jsstring) (agentState : AgentState) : AgentState :=
  fold_left (fun st command => handleSubmit command st) commands agentState.

(* ===================================================================== *)
(** ** Vocabulary of the specification *)
(* ===================================================================== *)

(** The energy invariant of the data model. *)
Definition energyInRange (s : AgentState) : Prop := 0 <= energy s <= 100.

(** The position invariant of the data model. *)
Definition onGrid (s : AgentState) : Prop :=
  0 <= x s <= GRID_SIZE - 1 /\ 0 <= y s <= GRID_SIZE - 1.

(** One step in the cycle north, west, south, east, north. *)
Definition counterClockwise (h : Heading) : Heading :=
  match h with north => west | west => south | south => east | east => north end.

(** One step in the cycle north, east, south, west, north. *)
Definition clockwise (h : Heading) : Heading :=
  match h with north => east | east => south | south => west | west => north end.

(** The heading opposite to [h]. *)
Definition opposite (h : Heading) : Heading :=
  match h with north => south | south => north | east => west | west => east end.

(** The three prompts for a missing argument. *)
Definition notePrompt : jsstring :=
  str "Please provide note content after the command (e.g. " ++ [ldquo]
  ++ str "note secure perimeter" ++ [rdquo] ++ str ").".

Definition collectPrompt : jsstring :=
  str "Specify what to collect (e.g. " ++ [ldquo] ++ str "collect sample" ++ [rdquo]
  ++ str ").".

Definition dropPrompt : jsstring :=
  str "Specify what to drop (e.g. " ++ [ldquo] ++ str "drop sample" ++ [rdquo]
  ++ str ").".

(** The commands [collect <item>] and [drop <item>]. *)
Definition collectCommand (item : jsstring) : jsstring := str "collect " ++ item.
Definition dropCommand (item : jsstring) : jsstring := str "drop " ++ item.

(** The baseline agent after it has collected a sample. *)
Definition holdingSample : AgentState :=
  {| x := 3; y := 3; heading := north; energy := 80;
     inventory := [str "sample"]; notes := [str "Calibrated and ready."] |}.

(** The tests of the rules that come before the movement rule: a
    normalized input that passes one of them never reaches it. *)
Definition claimedBeforeMove (normalized : jsstring) : bool :=
  isEmpty normalized
  || includesStr [str "help"; str "commands"; str "manual"] normalized
  || includesStr [str "status"; str "report"; str "state"] normalized
  || startsWith normalized (str "note ")
  || startsWith normalized (str "collect ")
  || startsWith normalized (str "drop ")
  || startsWith normalized (str "energy ")
  || startsWith normalized (str "path ")
  || includesStr [str "reset"; str "reboot"; str "init"] normalized
  || includesStr [str "rest"; str "recover"; str "recharge"] normalized
  || includesStr [str "scan"; str "scan area"; str "scan perimeter"; str "analyze"]
                 normalized
  || startsWith normalized (str "turn ").

(** The test of the movement rule. *)
Definition asksToMove (normalized : jsstring) : bool :=
  startsWith normalized (str "move") || includes normalized (str "forward").

(** The cardinal direction named in a normalized input, looked for in the
    order north, south, east, west. *)
Definition requestedDirection (normalized : jsstring) : option Heading :=
  if includes normalized (str "north") then Some north
  else if includes normalized (str "south") then Some south
  else if includes normalized (str "east") then Some east
  else if includes normalized (str "west") then Some west
  else None.

(** An agent at the western border, facing west. *)
Definition atWestBorder : AgentState :=
  {| x := 0; y := 3; heading := west; energy := 80; inventory := [];
     notes := [str "Calibrated and ready."] |}.

(** The response to a target that is not on the grid or not a number. *)
Definition outOfBoundsResponse : jsstring :=
  str "Coordinates out of bounds. The grid is 7" ++ [times]
  ++ str "7, indexed from (0,0).".

(** The response to a remainder that is not made of two parts. *)
Definition pathUsageResponse : jsstring :=
  str "Use " ++ [ldquo] ++ str "path x,y" ++ [rdquo]
  ++ str " to teleport the agent within the grid.".

(** An integer in the words of the specification: decimal digits, with an
    optional minus sign before them, and nothing else. *)
Definition isIntegerText (t : jsstring) : bool :=
  match t with
  | 45%N :: ds => negb (isEmpty ds) && forallb isDigit ds
  | ds => negb (isEmpty ds) && forallb isDigit ds
  end.

(** The number such a text denotes. *)
Definition integerValue (t : jsstring) : Z :=
  match t with
  | 45%N :: ds => - digitsValue ds
  | ds => digitsValue ds
  end.

(* ===================================================================== *)
(** ** The controller and the dashboard *)
(* ===================================================================== *)

Record CommandLog := {
  id : jsstring;
  userCommand : jsstring;
  agentResponse : jsstring;
  stateAfter : AgentState;
  timestamp : Z
}.

(** The three pieces of state of the component [CommandAgent]. *)
Record Session := {
  command : jsstring;
  agentState : AgentState;
  history : list CommandLog
}.

(** The state the component starts with.  The identifier and the time of the
    boot entry come from the runtime ([createId], [Date.now]). *)
Definition initialSession (bootId : jsstring) (now : Z) : Session :=
  {| command := [];
     agentState := baseState;
     history := [ {| id := bootId;
                     userCommand := str "system boot";
                     agentResponse := str "Agent online. Ready for directives.";
                     stateAfter := baseState;
                     timestamp := now |} ] |}.

(** The [onChange] handler of the input field. *)
Definition setCommand (text : jsstring) (ss : Session) : Session :=
  {| command := text; agentState := agentState ss; history := history ss |}.

(** The whole of [handleSubmit], on the three pieces of state.  The
    identifier and the time of the new entry come from the runtime. *)
Definition handleSubmitSession (newId : jsstring) (now : Z) (ss : Session) : Session :=
  let currentCommand := command ss in
  if isEmpty (trim currentCommand) then
    {| command := []; agentState := agentState ss; history := history ss |}
  else
    let result := interpretCommand currentCommand (agentState ss) in
    let entry := {| id := newId;
                    userCommand := currentCommand;
                    agentResponse := response result;
                    stateAfter := nextState result;
                    timestamp := now |} in
    {| command := [];
       agentState := nextState result;
       history := history ss ++ [entry] |}.

(** What the user does: type a text, then submit it.  Each submission comes
    with the identifier and the time the runtime gives to its entry. *)
Record Submission := {
  typed : jsstring;
  entryId : jsstring;
  entryTime : Z
}.

Definition submit (ss : Session) (u : Submission) : Session :=
  handleSubmitSession (entryId u) (entryTime u) (setCommand (typed u) ss).

Definition runSubmissions (us : list Submission) (ss : Session) : Session :=
  fold_left submit us ss.

(** [array.join(sep)]. *)
Fixpoint join (sep : jsstring) (l : list jsstring) : jsstring :=
  match l with
  | [] => []
  | a :: t =>
      match t with
      | [] => a
      | _ :: _ => a ++ sep ++ join sep t
      end
  end.

(** [array.map((entry, index) => f(entry, index))], the index counted from
    [i]. *)
Fixpoint mapIndexFrom {A B : Type} (f : A -> Z -> B) (i : Z) (l : list A) : list B :=
  match l with
  | [] => []
  | a :: t => f a i :: mapIndexFrom f (i + 1) t
  end.

Definition inventoryLabel (agentState : AgentState) : jsstring :=
  if negb (Z.of_nat (List.length (inventory agentState)) =? 0)
  then join (str ", ") (inventory agentState)
  else str "Empty".

(** The numbered lines of the notes preview, before they are joined. *)
Definition notesPreviewLines (agentState : AgentState) : list jsstring :=
  let noteStartIndex := Z.max 0 (Z.of_nat (List.length (notes agentState)) - 3) in
  mapIndexFrom
    (fun entry index => numToString (noteStartIndex + index + 1) ++ str ". " ++ entry)
    0 (slice (notes agentState) (-3)).


(** [Array.from({ length }, (_, index) => f(index))]. *)
Definition arrayFrom {A : Type} (length : Z) (f : Z -> A) : list A :=
  map (fun i => f (Z.of_nat i)) (seq 0 (Z.to_nat length)).

(** [s.slice(start, end)] for indices that are not negative. *)
Definition sliceTo {A : Type} (s : list A) (start stop : Z) : list A :=
  let len := Z.of_nat (List.length s) in
  let from := Z.min start len in
  let to := Z.min stop len in
  firstn (Z.to_nat (Z.max (to - from) 0)) (skipn (Z.to_nat from) s).

(** A cell of the tactical map: its key, whether it is drawn as the agent,
    and the text in it. *)
Record MapCell := {
  key : jsstring;
  isAgent : bool;
  label : jsstring
}.

(** The rows of the tactical map, from the top one down. *)
Definition tacticalMap (agentState : AgentState) : list (list MapCell) :=
  map (fun row =>
         arrayFrom GRID_SIZE (fun column =>
           let isAgent := (x agentState =? column) && (y agentState =? row) in
           {| key := numToString row ++ str "-" ++ numToString column;
              isAgent := isAgent;
              label := if isAgent
                       then toUpperCase (sliceTo (headingName (heading agentState)) 0 1)
                       else numToString column ++ str "," ++ numToString row |}))
      (map (fun rowIndex => GRID_SIZE - 1 - rowIndex)
           (arrayFrom GRID_SIZE (fun rowIndex => rowIndex))).

(* ===================================================================== *)
(** ** Vocabulary of the further properties *)
(* ===================================================================== *)

(** An item name as the interpreter stores it: not empty, and with no white
    space around it. *)
Definition isItemName (item : jsstring) : Prop := item <> [] /\ trim item = item.

(** The command [note <text>]. *)
Definition noteCommand (text : jsstring) : jsstring := str "note " ++ text.

(** The beginnings of the responses that report a problem or only give
    information. *)
Definition diagnosticPrefixes : list jsstring :=
  [ str "Awaiting directives"; str "Available directives"; str "Position (";
    str "Please provide"; str "Specify"; str "Item "; str "Inventory does not contain";
    str "Provide an energy"; str "Use "; str "Coordinates out of bounds";
    str "Boundary reached"; str "Command not recognized" ].

(** The words that reset the agent, and the words that let it rest. *)
Definition resetWords : list jsstring := [str "reset"; str "reboot"; str "init"].
Definition restWords : list jsstring := [str "rest"; str "recover"; str "recharge"].

(** The words that start a scan, and the beginning of its report. *)
Definition scanWords : list jsstring :=
  [str "scan"; str "scan area"; str "scan perimeter"; str "analyze"].
Definition scanPreamble : jsstring := str "Scan complete. No threats detected. Notes: ".

(** The response to an energy value that is not a number. *)
Definition energyPrompt : jsstring :=
  str "Provide an energy value between 0 and 100 (e.g. " ++ [ldquo] ++ str "energy 65"
  ++ [rdquo] ++ str ").".

(** The state after the last entry of a log, or [start] for an empty log. *)
Definition lastState (start : AgentState) (log : list CommandLog) : AgentState :=
  last (map stateAfter log) start.

(** A log is a trace of the interpreter from [start] when each entry holds
    the response and the state that the interpreter gives for the command
    of the entry, from the state of the entry before. *)
Fixpoint isTrace (start : AgentState) (log : list CommandLog) : Prop :=
  match log with
  | [] => True
  | e :: rest =>
      agentResponse e = response (interpretCommand (userCommand e) start)
      /\ stateAfter e = nextState (interpretCommand (userCommand e) start)
      /\ isTrace (stateAfter e) rest
  end.

(** A submission that is not blank. *)
Definition isSubmitted (text : jsstring) : bool := negb (isEmpty (trim text)).

(** The letter drawn in the agent's cell. *)
Definition headingLetter (h : Heading) : jsstring :=
  match h with
  | north => str "N"
  | east => str "E"
  | south => str "S"
  | west => str "W"
  end.

(** A cell that is not on the map. *)
Definition noCell : MapCell := {| key := []; isAgent := false; label := [] |}.

(** The words that ask for the status line. *)
Definition statusWords : list jsstring := [str "status"; str "report"; str "state"].

(** The units of a rendered integer: digits and the minus sign. *)
Definition isNumberUnit (c : N) : Prop := c = 45%N \/ (48 <= c <= 57)%N.

(* ===================================================================== *)
(** ** Proof automation *)
(* ===================================================================== *)

(** Case analysis on every test of the interpreter. *)
Ltac interp_cases :=
  repeat match goal with
    | |- context [if ?c then _ else _] => destruct c eqn:?
    | |- context [match ?e with Some _ => _ | None => _ end] => destruct e eqn:?
    | |- context [match ?e with [] => _ | _ :: _ => _ end] => destruct e eqn:?
    end.

(** Settles the tests of the interpreter that computation decides. *)
Ltac decide_guard :=
  match goal with
  | |- context [if ?g then _ else _] =>
      first [ replace g with false by reflexivity
            | replace g with true by reflexivity ];
      cbv iota
  end.

(** Rewrites the tests of the rules before the movement rule to false. *)
Ltac skip_earlier_rules H :=
  unfold claimedBeforeMove in H;
  repeat (apply orb_false_iff in H; let H' := fresh "G" in destruct H as [H H']);
  unfold interpretCommand; cbv zeta;
  repeat match goal with
    | G : ?g = false |- context [if ?g then _ else _] => rewrite G
    end.

(* ===================================================================== *)
(** ** Properties *)
(* ===================================================================== *)

(** *** Energy and position *)

Lemma clampEnergy_range (value : Z) : 0 <= clampEnergy value <= 100.
Proof. unfold clampEnergy. lia. Qed.

Lemma interpretCommand_energy (input : jsstring) (s : AgentState) :
  energy (nextState (interpretCommand input s)) = energy s
  \/ 0 <= energy (nextState (interpretCommand input s)) <= 100.
Proof.
  unfold interpretCommand.
  interp_cases; cbn [nextState energy];
    first [ left; reflexivity | right; apply clampEnergy_range | right; cbn; lia ].
Qed.

Lemma handleSubmit_energy (command : jsstring) (s : AgentState) :
  energyInRange s -> energyInRange (handleSubmit command s).
Proof.
  unfold handleSubmit, energyInRange. intros Hs.
  destruct (isEmpty (trim command)); [exact Hs|].
  destruct (interpretCommand_energy command s) as [E | E]; [rewrite E; exact Hs | exact E].
Qed.

Lemma runSession_energy (commands : list jsstring) :
  forall s, energyInRange s -> energyInRange (runSession commands s).
Proof.
  unfold runSession.
  induction commands as [| c cs IH]; intros s Hs; cbn [fold_left].
  - exact Hs.
  - apply IH. apply handleSubmit_energy. exact Hs.
Qed.

(** C1. From a state whose energy lies in [0,100], whatever the input, the
    state returned by [interpretCommand] has its energy in [0,100], and so has
    the state at the end of any session.  Moreover, from any state at all, a
    command either leaves the energy as it was or yields an energy in
    [0,100]: every branch that writes the energy writes a clamped value. *)
Theorem energy_stays_in_range (input : jsstring) (commands : list jsstring)
    (s : AgentState) :
  energyInRange s ->
  energyInRange (nextState (interpretCommand input s))
  /\ energyInRange (runSession commands s)
  /\ (forall s0 : AgentState,
        energy (nextState (interpretCommand input s0)) = energy s0
        \/ energyInRange (nextState (interpretCommand input s0))).
Proof.
  intros Hs. repeat split.
  - destruct (interpretCommand_energy input s) as [E | E]; [rewrite E|]; apply Hs || apply E.
  - destruct (interpretCommand_energy input s) as [E | E]; [rewrite E|]; apply Hs || apply E.
  - apply (runSession_energy commands s Hs).
  - apply (runSession_energy commands s Hs).
  - intros s0. apply interpretCommand_energy.
Qed.

Lemma energy_stays_in_range_witness :
  energyInRange (nextState (interpretCommand (str "energy 250") baseState))
  /\ energyInRange (runSession [str "rest"; str "rest"; str "scan"] baseState).
Proof.
  assert (H : energyInRange baseState) by (unfold energyInRange; cbn; lia).
  pose proof (energy_stays_in_range (str "energy 250")
                [str "rest"; str "rest"; str "scan"] baseState H) as [H1 [H2 _]].
  exact (conj H1 H2).
Defined.

(** *** The grid *)

Lemma moveForward_onGrid (s : AgentState) :
  onGrid s ->
  0 <= fst (moveForward s) <= GRID_SIZE - 1 /\ 0 <= snd (moveForward s) <= GRID_SIZE - 1.
Proof.
  unfold onGrid, moveForward, GRID_SIZE. intros [Hx Hy].
  destruct (heading s); cbn [fst snd]; lia.
Qed.

Lemma withHeading_onGrid (s : AgentState) (h : Heading) :
  onGrid s -> onGrid (withHeading s h).
Proof. unfold onGrid. cbn. tauto. Qed.

Lemma interpretCommand_onGrid (input : jsstring) (s : AgentState) :
  onGrid s -> onGrid (nextState (interpretCommand input s)).
Proof.
  intros Hs. unfold interpretCommand.
  interp_cases; cbn [nextState]; try exact Hs;
    try (unfold onGrid in *; cbn [x y]; exact Hs).
  - (* path *)
    repeat match goal with
      | H : (_ || _) = false |- _ => apply orb_false_iff in H; destruct H
      end.
    unfold onGrid, GRID_SIZE in *; cbn [x y]. lia.
  - (* reset *)
    unfold onGrid, baseState, GRID_SIZE; cbn. lia.
  - unfold onGrid; cbn [x y]. apply moveForward_onGrid, withHeading_onGrid, Hs.
  - unfold onGrid; cbn [x y]. apply moveForward_onGrid, withHeading_onGrid, Hs.
  - unfold onGrid; cbn [x y]. apply moveForward_onGrid, withHeading_onGrid, Hs.
  - unfold onGrid; cbn [x y]. apply moveForward_onGrid, withHeading_onGrid, Hs.
  - unfold onGrid; cbn [x y]. apply moveForward_onGrid, Hs.
Qed.

Lemma handleSubmit_onGrid (command : jsstring) (s : AgentState) :
  onGrid s -> onGrid (handleSubmit command s).
Proof.
  unfold handleSubmit. intros Hs.
  destruct (isEmpty (trim command)); [exact Hs | apply interpretCommand_onGrid, Hs].
Qed.

Lemma runSession_onGrid (commands : list jsstring) :
  forall s, onGrid s -> onGrid (runSession commands s).
Proof.
  unfold runSession.
  induction commands as [| c cs IH]; intros s Hs; cbn [fold_left].
  - exact Hs.
  - apply IH, handleSubmit_onGrid, Hs.
Qed.

(** C2. From a state on the 7x7 grid, whatever the input, the state returned
    by [interpretCommand] is on the grid, and so is the state at the end of
    any session of commands. *)
Theorem position_stays_on_grid (input : jsstring) (commands : list jsstring)
    (s : AgentState) :
  0 <= x s <= 6 /\ 0 <= y s <= 6 ->
  (0 <= x (nextState (interpretCommand input s)) <= 6
   /\ 0 <= y (nextState (interpretCommand input s)) <= 6)
  /\ (0 <= x (runSession commands s) <= 6 /\ 0 <= y (runSession commands s) <= 6).
Proof.
  intros Hs.
  assert (G : onGrid s) by (unfold onGrid, GRID_SIZE; lia).
  split.
  - pose proof (interpretCommand_onGrid input s G) as H.
    unfold onGrid, GRID_SIZE in H. lia.
  - pose proof (runSession_onGrid commands s G) as H.
    unfold onGrid, GRID_SIZE in H. lia.
Qed.

Lemma position_stays_on_grid_witness :
  (0 <= x (nextState (interpretCommand (str "move east") baseState)) <= 6
   /\ 0 <= y (nextState (interpretCommand (str "move east") baseState)) <= 6)
  /\ (0 <= x (runSession [str "move north"; str "move north"; str "move north";
                          str "move north"; str "path 6,6"; str "move east"] baseState) <= 6
      /\ 0 <= y (runSession [str "move north"; str "move north"; str "move north";
                             str "move north"; str "path 6,6"; str "move east"] baseState) <= 6).
Proof.
  apply (position_stays_on_grid (str "move east")
           [str "move north"; str "move north"; str "move north";
            str "move north"; str "path 6,6"; str "move east"] baseState).
  cbn. lia.
Defined.

(** *** Reset *)

(** C7. From every state, each of the inputs reset, reboot and init returns
    the baseline state: position (3,3), heading north, energy 80, an empty
    inventory and the seed note alone. *)
Theorem reset_returns_baseline (s : AgentState) :
  let baseline :=
    {| x := 3; y := 3; heading := north; energy := 80; inventory := [];
       notes := [str "Calibrated and ready."] |} in
  let confirmation := str "Agent reset to baseline configuration." in
  interpretCommand (str "reset") s = {| response := confirmation; nextState := baseline |}
  /\ interpretCommand (str "reboot") s = {| response := confirmation; nextState := baseline |}
  /\ interpretCommand (str "init") s = {| response := confirmation; nextState := baseline |}.
Proof. repeat split; reflexivity. Qed.

(** *** Turning *)

Lemma nextHeading_Left (h : Heading) : nextHeading h Left = counterClockwise h.
Proof. destruct h; reflexivity. Qed.

Lemma nextHeading_Right (h : Heading) : nextHeading h Right = clockwise h.
Proof. destruct h; reflexivity. Qed.

Lemma clockwise_twice (h : Heading) : clockwise (clockwise h) = opposite h.
Proof. destruct h; reflexivity. Qed.

(** C9. From every state, turn left moves the heading one step along north,
    west, south, east, north and takes 2 energy (clamped); turn right moves it
    one step along north, east, south, west, north and takes 2 energy
    (clamped); turn left followed by turn right gives back the heading the
    agent started with. *)
Theorem turn_left_then_right (s : AgentState) :
  let s1 := nextState (interpretCommand (str "turn left") s) in
  let s2 := nextState (interpretCommand (str "turn right") s1) in
  s1 = {| x := x s; y := y s; heading := counterClockwise (heading s);
          energy := clampEnergy (energy s - 2);
          inventory := inventory s; notes := notes s |}
  /\ s2 = {| x := x s; y := y s; heading := clockwise (heading s1);
             energy := clampEnergy (energy s1 - 2);
             inventory := inventory s; notes := notes s |}
  /\ heading s2 = heading s.
Proof.
  destruct s as [sx sy h e inv ns]. destruct h; repeat split; reflexivity.
Qed.

(** *** Strings *)

Lemma eqs_refl (a : jsstring) : eqs a a = true.
Proof. induction a as [| c a IH]; cbn; [reflexivity | rewrite N.eqb_refl; exact IH]. Qed.

Lemma eqs_eq (a b : jsstring) : eqs a b = true -> a = b.
Proof.
  revert b. induction a as [| c a IH]; intros [| d b] H; cbn in H; try discriminate.
  - reflexivity.
  - apply andb_true_iff in H as [Hc Hr]. apply N.eqb_eq in Hc. subst d.
    f_equal. apply IH, Hr.
Qed.

(** [includes] on an array of strings is list membership. *)
Lemma includesStr_In (l : list jsstring) (s : jsstring) :
  includesStr l s = true <-> In s l.
Proof.
  unfold includesStr. rewrite existsb_exists. split.
  - intros [e [Hin He]]. apply eqs_eq in He. subst e. exact Hin.
  - intros Hin. exists s. split; [exact Hin | apply eqs_refl].
Qed.

Lemma includesStr_not_In (l : list jsstring) (s : jsstring) :
  includesStr l s = false <-> ~ In s l.
Proof.
  rewrite <- includesStr_In. destruct (includesStr l s); split; congruence.
Qed.

Lemma startsWith_app (p r : jsstring) : startsWith (p ++ r) p = true.
Proof. induction p as [| d p IH]; cbn; [reflexivity | rewrite N.eqb_refl; exact IH]. Qed.

Lemma startsWith_inv (s p : jsstring) :
  startsWith s p = true -> exists r, s = p ++ r.
Proof.
  revert s. induction p as [| d p IH]; intros s H.
  - exists s. reflexivity.
  - destruct s as [| c s]; cbn in H; [discriminate|].
    apply andb_true_iff in H as [Hc Hr]. apply N.eqb_eq in Hc. subst d.
    destruct (IH s Hr) as [r ->]. exists r. reflexivity.
Qed.

Lemma toLowerCase_app (a b : jsstring) :
  toLowerCase (a ++ b) = toLowerCase a ++ toLowerCase b.
Proof. apply flat_map_app. Qed.

Lemma isWhiteSpace_spec (c : N) :
  isWhiteSpace c = true <->
  (9 <= c <= 13 \/ c = 32 \/ c = 160 \/ c = 5760 \/ 8192 <= c <= 8202 \/ c = 8232
   \/ c = 8233 \/ c = 8239 \/ c = 8287 \/ c = 12288 \/ c = 65279)%N.
Proof.
  unfold isWhiteSpace.
  rewrite !orb_true_iff, !andb_true_iff, !N.leb_le, !N.eqb_eq. tauto.
Qed.

(** The lower case of a code unit: one unit, or the two units of U+0130. *)
Lemma toLowerUnit_spec (c : N) :
  (toLowerUnit c = [c + 32] /\ (65 <= c <= 90 \/ 192 <= c <= 222))%N
  \/ (toLowerUnit c = [105; 775] /\ c = 304)%N
  \/ (toLowerUnit c = [107] /\ c = 8490)%N
  \/ toLowerUnit c = [c].
Proof.
  unfold toLowerUnit.
  destruct ((65 <=? c) && (c <=? 90))%N eqn:E1.
  { left. apply andb_true_iff in E1 as [A B]. apply N.leb_le in A, B. split; [reflexivity | lia]. }
  destruct ((192 <=? c) && (c <=? 222) && negb (c =? 215))%N eqn:E2.
  { left. apply andb_true_iff in E2 as [E2 _]. apply andb_true_iff in E2 as [A B].
    apply N.leb_le in A, B. split; [reflexivity | lia]. }
  destruct (c =? 304)%N eqn:E3.
  { right; left. apply N.eqb_eq in E3. split; [reflexivity | exact E3]. }
  destruct (c =? 8490)%N eqn:E4.
  { right; right; left. apply N.eqb_eq in E4. split; [reflexivity | exact E4]. }
  right; right; right. reflexivity.
Qed.

Lemma toLowerUnit_white (c : N) : isWhiteSpace c = true -> toLowerUnit c = [c].
Proof.
  intros W. apply isWhiteSpace_spec in W.
  destruct (toLowerUnit_spec c) as [[_ H] | [[_ H] | [[_ H] | H]]];
    try exact H; exfalso; lia.
Qed.

(** A lower case that begins with anything but the letter i is one unit. *)
Lemma toLowerUnit_head (c d : N) (r : jsstring) :
  toLowerUnit c = d :: r -> d <> 105%N -> r = [].
Proof.
  intros H Hd.
  destruct (toLowerUnit_spec c) as [[E _] | [[E _] | [[E _] | E]]];
    rewrite E in H; injection H as <- <-; congruence.
Qed.

(** Only white space lowers to white space. *)
Lemma toLowerUnit_white_inv (c d : N) :
  toLowerUnit c = [d] -> isWhiteSpace d = true -> c = d.
Proof.
  intros H W. apply isWhiteSpace_spec in W.
  destruct (toLowerUnit_spec c) as [[E R] | [[E R] | [[E R] | E]]];
    rewrite E in H; injection H as <-; try reflexivity; exfalso; lia.
Qed.

Lemma toLowerCase_white (w : jsstring) :
  forallb isWhiteSpace w = true -> toLowerCase w = w.
Proof.
  induction w as [| c w IH]; cbn; intros H; [reflexivity|].
  apply andb_true_iff in H as [Hc Hw].
  rewrite (toLowerUnit_white c Hc). cbn. f_equal. apply IH, Hw.
Qed.

Lemma toLowerUnit_nonempty (c : N) : toLowerUnit c <> [].
Proof.
  destruct (toLowerUnit_spec c) as [[E _] | [[E _] | [[E _] | E]]];
    rewrite E; discriminate.
Qed.

Lemma trimStart_split (s : jsstring) :
  exists w, s = w ++ trimStart s /\ forallb isWhiteSpace w = true.
Proof.
  induction s as [| c s [w [E F]]]; cbn.
  - exists []. split; reflexivity.
  - destruct (isWhiteSpace c) eqn:W.
    + exists (c :: w). cbn. rewrite W, F. split; [f_equal; exact E | reflexivity].
    + exists []. split; reflexivity.
Qed.

Lemma trimStart_white (s : jsstring) :
  forallb isWhiteSpace (trimStart s) = forallb isWhiteSpace s.
Proof.
  induction s as [| c s IH]; cbn; [reflexivity|].
  destruct (isWhiteSpace c) eqn:W; cbn; [exact IH | rewrite W; reflexivity].
Qed.

Lemma trimEnd_nil_iff (s : jsstring) :
  trimEnd s = [] <-> forallb isWhiteSpace s = true.
Proof.
  induction s as [| c s IH]; cbn; [tauto|].
  destruct (trimEnd s) as [| d r] eqn:E.
  - destruct (isWhiteSpace c); cbn.
    + rewrite <- IH. tauto.
    + split; discriminate.
  - split; [discriminate|]. intros H. apply andb_true_iff in H as [_ H].
    apply IH in H. discriminate.
Qed.

Lemma trim_nil_iff (s : jsstring) :
  trim s = [] <-> forallb isWhiteSpace s = true.
Proof. unfold trim. rewrite trimEnd_nil_iff, trimStart_white. tauto. Qed.

Lemma trimEnd_cons_inv (s : jsstring) (c : N) (r : jsstring) :
  trimEnd s = c :: r -> exists t, s = c :: t /\ trimEnd t = r.
Proof.
  destruct s as [| a t]; cbn; [discriminate|].
  destruct (trimEnd t) as [| d q] eqn:E.
  - destruct (isWhiteSpace a); [discriminate|].
    intros [= <- <-]. exists t. split; [reflexivity | exact E].
  - intros [= <- <-]. exists t. split; [reflexivity | exact E].
Qed.

Lemma trimEnd_app_inv (a : jsstring) :
  forall t b, trimEnd t = a ++ b -> exists t', t = a ++ t' /\ trimEnd t' = b.
Proof.
  induction a as [| c a IH]; intros t b H.
  - exists t. split; [reflexivity | exact H].
  - cbn in H. apply trimEnd_cons_inv in H as [t1 [-> H1]].
    destruct (IH t1 b H1) as [t' [-> H2]].
    exists t'. split; [reflexivity | exact H2].
Qed.

(** A string whose lower case begins with a keyword begins itself with as
    many units, which lower to the keyword. *)
Lemma lower_startsWith_inv (kw : jsstring) :
  Forall (fun k => k <> 105%N) kw ->
  forall u rest,
    startsWith (toLowerCase u) (kw ++ rest) = true ->
    exists u1 u2,
      u = u1 ++ u2 /\ toLowerCase u1 = kw /\ List.length u1 = List.length kw
      /\ startsWith (toLowerCase u2) rest = true.
Proof.
  induction 1 as [| k kw Hk Hkw IH]; intros u rest H.
  - exists [], u. repeat split; assumption || reflexivity.
  - destruct u as [| c u]; [cbn in H; discriminate|].
    change (toLowerCase (c :: u)) with (toLowerUnit c ++ toLowerCase u) in H.
    destruct (toLowerUnit c) as [| d r] eqn:E; [apply toLowerUnit_nonempty in E; contradiction|].
    cbn in H. apply andb_true_iff in H as [Hd Hr]. apply N.eqb_eq in Hd. subst d.
    pose proof (toLowerUnit_head c k r E Hk) as ->. cbn in Hr.
    destruct (IH u rest Hr) as [u1 [u2 [-> [L1 [L2 L3]]]]].
    exists (c :: u1), u2. repeat split.
    + change (toLowerCase (c :: u1)) with (toLowerUnit c ++ toLowerCase u1).
      rewrite E, L1. reflexivity.
    + cbn. rewrite L2. reflexivity.
    + exact L3.
Qed.

Lemma indexOfNat_unfold (s p : jsstring) :
  indexOfNat s p =
  if startsWith s p then Some O
  else match s with
       | [] => None
       | _ :: t => option_map S (indexOfNat t p)
       end.
Proof. destruct s; reflexivity. Qed.

(** Leading white space is skipped by the search for a word. *)
Lemma indexOfNat_after_white (w : jsstring) (k : N) (kw rest : jsstring) :
  forallb isWhiteSpace w = true -> isWhiteSpace k = false ->
  indexOfNat (w ++ k :: kw ++ rest) (k :: kw) = Some (List.length w).
Proof.
  intros Hw Hk. induction w as [| c w IH].
  - rewrite indexOfNat_unfold. cbn [app List.length startsWith].
    rewrite N.eqb_refl, startsWith_app. reflexivity.
  - cbn in Hw. apply andb_true_iff in Hw as [Hc Hw].
    rewrite indexOfNat_unfold. cbn [app startsWith].
    destruct (N.eqb_spec c k) as [-> | _]; [congruence|].
    cbn [andb List.length]. rewrite (IH Hw). reflexivity.
Qed.

Lemma slice_of_nat {A : Type} (s : list A) (n : nat) :
  slice s (Z.of_nat n) = skipn n s.
Proof.
  unfold slice.
  destruct (Z.ltb_spec (Z.of_nat n) 0) as [H | _]; [lia|].
  destruct (Nat.le_gt_cases n (List.length s)) as [L | L].
  - rewrite Z.min_l by lia. rewrite Nat2Z.id. reflexivity.
  - rewrite Z.min_r by lia. rewrite Nat2Z.id.
    rewrite !skipn_all2 by lia. reflexivity.
Qed.

(** The text that follows a verb.  When the trimmed, lower-cased input
    begins with the verb and a space, the text cut from the input after the
    verb is not blank: a space that ends the trimmed input would have been
    trimmed away. *)
Lemma argument_not_blank (k : N) (kw input : jsstring) :
  Forall (fun c => c <> 105%N) (k :: kw) -> isWhiteSpace k = false ->
  startsWith (toLowerCase (trim input)) ((k :: kw) ++ [32%N]) = true ->
  isEmpty (trim (slice input (indexOf (toLowerCase input) (k :: kw)
                              + Z.of_nat (List.length (k :: kw))))) = false.
Proof.
  intros HF Hk H.
  destruct (trimStart_split input) as [w [Ein Hw]].
  destruct (lower_startsWith_inv (k :: kw) HF (trim input) [32%N] H)
    as [u1 [u2 [Et [L1 [L2 L3]]]]].
  unfold trim in Et. apply trimEnd_app_inv in Et as [t1 [Et1 Et2]].
  (* the unit after the verb is a space *)
  destruct u2 as [| c5 u5]; [cbn in L3; discriminate|].
  change (toLowerCase (c5 :: u5)) with (toLowerUnit c5 ++ toLowerCase u5) in L3.
  destruct (toLowerUnit c5) as [| d r] eqn:E5; [apply toLowerUnit_nonempty in E5; contradiction|].
  cbn in L3. apply andb_true_iff in L3 as [Hd _]. apply N.eqb_eq in Hd. subst d.
  assert (r = []) as -> by (apply (toLowerUnit_head c5 32%N r E5); discriminate).
  apply toLowerUnit_white_inv in E5; [subst c5 | reflexivity].
  (* and something that is not white space follows it *)
  pose proof Et2 as Full.
  apply trimEnd_cons_inv in Et2 as [t2 [-> Et2]].
  assert (NB : trimEnd t2 <> []).
  { intros B. cbn in Full. rewrite B in Full. cbn in Full. discriminate. }
  (* the verb is found right after the leading white space *)
  rewrite Et1 in Ein.
  assert (EL : toLowerCase input = w ++ k :: kw ++ toLowerCase (32%N :: t2)).
  { rewrite Ein at 1. rewrite !toLowerCase_app, (toLowerCase_white w Hw), L1. reflexivity. }
  unfold indexOf. rewrite EL, (indexOfNat_after_white w k kw _ Hw Hk).
  rewrite <- L2, <- Nat2Z.inj_add, slice_of_nat.
  rewrite Ein at 1. rewrite app_assoc, <- length_app, skipn_app, skipn_all, Nat.sub_diag.
  cbn [skipn app].
  destruct (trim (32%N :: t2)) eqn:T; [|reflexivity].
  apply trim_nil_iff in T. cbn in T. apply trimEnd_nil_iff in T. contradiction.
Qed.

(** *** Missing arguments *)

Lemma note_argument (input : jsstring) :
  startsWith (toLowerCase (trim input)) (str "note ") = true ->
  isEmpty (trim (slice input (indexOf (toLowerCase input) (str "note") + 4))) = false.
Proof.
  intros H. apply (argument_not_blank 110%N [111; 116; 101]%N input).
  - repeat constructor; discriminate.
  - reflexivity.
  - exact H.
Qed.

Lemma collect_argument (input : jsstring) :
  startsWith (toLowerCase (trim input)) (str "collect ") = true ->
  isEmpty (trim (slice input (indexOf (toLowerCase input) (str "collect") + 7))) = false.
Proof.
  intros H. apply (argument_not_blank 99%N [111; 108; 108; 101; 99; 116]%N input).
  - repeat constructor; discriminate.
  - reflexivity.
  - exact H.
Qed.

Lemma drop_argument (input : jsstring) :
  startsWith (toLowerCase (trim input)) (str "drop ") = true ->
  isEmpty (trim (slice input (indexOf (toLowerCase input) (str "drop") + 4))) = false.
Proof.
  intros H. apply (argument_not_blank 100%N [114; 111; 112]%N input).
  - repeat constructor; discriminate.
  - reflexivity.
  - exact H.
Qed.

(** C10. Whatever the input, the test that guards a missing-argument prompt
    never succeeds: when the trimmed, lower-cased input begins with the verb
    and a space, the argument cut from the input is not empty.  So none of
    the three prompts is ever the response of the interpreter. *)
Theorem argument_prompts_unreachable (input : jsstring) (s : AgentState) :
  let normalized := toLowerCase (trim input) in
  (startsWith normalized (str "note ")
   && isEmpty (trim (slice input (indexOf (toLowerCase input) (str "note") + 4)))) = false
  /\ (startsWith normalized (str "collect ")
      && isEmpty (trim (slice input (indexOf (toLowerCase input) (str "collect") + 7)))) = false
  /\ (startsWith normalized (str "drop ")
      && isEmpty (trim (slice input (indexOf (toLowerCase input) (str "drop") + 4)))) = false
  /\ response (interpretCommand input s) <> notePrompt
  /\ response (interpretCommand input s) <> collectPrompt
  /\ response (interpretCommand input s) <> dropPrompt.
Proof.
  cbv zeta. repeat split.
  - destruct (startsWith _ (str "note ")) eqn:G; [apply note_argument, G | reflexivity].
  - destruct (startsWith _ (str "collect ")) eqn:G; [apply collect_argument, G | reflexivity].
  - destruct (startsWith _ (str "drop ")) eqn:G; [apply drop_argument, G | reflexivity].
  - unfold interpretCommand. interp_cases; cbn [response]; intros E;
      try (unfold notePrompt, formatState, str in E; cbn in E; discriminate).
    match goal with
    | H : startsWith _ (str "note ") = true |- _ => apply note_argument in H; congruence
    end.
  - unfold interpretCommand. interp_cases; cbn [response]; intros E;
      try (unfold collectPrompt, formatState, str in E; cbn in E; discriminate).
    match goal with
    | H : startsWith _ (str "collect ") = true |- _ => apply collect_argument in H; congruence
    end.
  - unfold interpretCommand. interp_cases; cbn [response]; intros E;
      try (unfold dropPrompt, formatState, str in E; cbn in E; discriminate).
    match goal with
    | H : startsWith _ (str "drop ") = true |- _ => apply drop_argument in H; congruence
    end.
Qed.

(** *** Inventory *)

Lemma trimEnd_app (a b : jsstring) :
  trimEnd b <> [] -> trimEnd (a ++ b) = a ++ trimEnd b.
Proof.
  intros NB. induction a as [| c a IH]; [reflexivity|].
  cbn. rewrite IH. destruct (a ++ trimEnd b) eqn:E; [|reflexivity].
  apply app_eq_nil in E as [_ E]. contradiction.
Qed.

Lemma trim_not_blank (s : jsstring) : trim s <> [] -> trimEnd s <> [].
Proof.
  intros H B. apply H. apply trim_nil_iff. apply trimEnd_nil_iff. exact B.
Qed.

Lemma indexOf_prefix (p r : jsstring) : indexOf (p ++ r) p = 0.
Proof. unfold indexOf. rewrite indexOfNat_unfold, startsWith_app. reflexivity. Qed.

Lemma interpretCommand_collect (arg : jsstring) (s : AgentState) :
  trim arg <> [] ->
  interpretCommand (collectCommand arg) s =
  if includesStr (inventory s) (trim arg) then
    {| response := str "Item " ++ [dquote] ++ trim arg ++ [dquote]
                   ++ str " is already secured.";
       nextState := s |}
  else
    {| response := str "Collected " ++ [dquote] ++ trim arg ++ [dquote]
                   ++ str " and stored in inventory.";
       nextState := {| x := x s; y := y s; heading := heading s; energy := energy s;
                       inventory := inventory s ++ [trim arg]; notes := notes s |} |}.
Proof.
  intros NB. pose proof (trim_not_blank arg NB) as NE.
  unfold interpretCommand, collectCommand. cbv zeta.
  assert (Item : trim (slice (str "collect " ++ arg)
                   (indexOf (toLowerCase (str "collect " ++ arg)) (str "collect") + 7))
                 = trim arg).
  { rewrite toLowerCase_app.
    change (toLowerCase (str "collect ")) with (str "collect" ++ [32%N]).
    rewrite <- app_assoc, indexOf_prefix.
    change (0 + 7) with (Z.of_nat 7). rewrite slice_of_nat. reflexivity. }
  rewrite Item.
  assert (Norm : toLowerCase (trim (str "collect " ++ arg))
                 = str "collect " ++ toLowerCase (trimEnd arg)).
  { unfold trim. change (trimStart (str "collect " ++ arg)) with (str "collect " ++ arg).
    rewrite (trimEnd_app _ _ NE), toLowerCase_app. reflexivity. }
  rewrite Norm. repeat decide_guard.
  destruct (trim arg) eqn:T; [contradiction|]. cbn [isEmpty]. reflexivity.
Qed.

Lemma interpretCommand_drop (arg : jsstring) (s : AgentState) :
  trim arg <> [] ->
  interpretCommand (dropCommand arg) s =
  if negb (includesStr (inventory s) (trim arg)) then
    {| response := str "Inventory does not contain " ++ [dquote] ++ trim arg ++ [dquote]
                   ++ str ".";
       nextState := s |}
  else
    {| response := str "Released " ++ [dquote] ++ trim arg ++ [dquote]
                   ++ str " from inventory.";
       nextState := {| x := x s; y := y s; heading := heading s; energy := energy s;
                       inventory := filter (fun entry => negb (eqs entry (trim arg)))
                                           (inventory s);
                       notes := notes s |} |}.
Proof.
  intros NB. pose proof (trim_not_blank arg NB) as NE.
  unfold interpretCommand, dropCommand. cbv zeta.
  assert (Item : trim (slice (str "drop " ++ arg)
                   (indexOf (toLowerCase (str "drop " ++ arg)) (str "drop") + 4))
                 = trim arg).
  { rewrite toLowerCase_app.
    change (toLowerCase (str "drop ")) with (str "drop" ++ [32%N]).
    rewrite <- app_assoc, indexOf_prefix.
    change (0 + 4) with (Z.of_nat 4). rewrite slice_of_nat. reflexivity. }
  rewrite Item.
  assert (Norm : toLowerCase (trim (str "drop " ++ arg))
                 = str "drop " ++ toLowerCase (trimEnd arg)).
  { unfold trim. change (trimStart (str "drop " ++ arg)) with (str "drop " ++ arg).
    rewrite (trimEnd_app _ _ NE), toLowerCase_app. reflexivity. }
  rewrite Norm. repeat decide_guard.
  destruct (trim arg) eqn:T; [contradiction|]. cbn [isEmpty]. reflexivity.
Qed.

Lemma eqs_sym (a b : jsstring) : eqs a b = eqs b a.
Proof.
  revert b. induction a as [| c a IH]; intros [| d b]; cbn; try reflexivity.
  rewrite N.eqb_sym, IH. reflexivity.
Qed.

Lemma filter_absent (name : jsstring) (l : list jsstring) :
  includesStr l name = false ->
  filter (fun entry => negb (eqs entry name)) l = l.
Proof.
  unfold includesStr. induction l as [| e l IH]; cbn; intros H; [reflexivity|].
  apply orb_false_iff in H as [He Hl].
  rewrite eqs_sym, He. cbn. f_equal. apply IH, Hl.
Qed.

Lemma includesStr_last (name : jsstring) (l : list jsstring) :
  includesStr (l ++ [name]) name = true.
Proof.
  unfold includesStr. rewrite existsb_app. cbn. rewrite eqs_refl, orb_true_r.
  reflexivity.
Qed.

(** C4, amended.  Let the item name be the argument without the white space
    around it.  When the inventory does not hold the name yet, collect adds
    it at the end, drop after collect gives back the state the agent had
    before (the inventory is the same list), and a drop alone is answered by
    an explanation and changes nothing.  When the inventory holds the name
    already, collect is answered by an explanation and changes nothing. *)
Theorem collect_then_drop (item : jsstring) (s : AgentState) :
  trim item <> [] ->
  let name := trim item in
  let collected := interpretCommand (collectCommand item) s in
  let dropped := interpretCommand (dropCommand item) (nextState collected) in
  (~ In name (inventory s) ->
     inventory (nextState collected) = inventory s ++ [name]
     /\ inventory (nextState dropped) = inventory s
     /\ nextState dropped = s
     /\ interpretCommand (dropCommand item) s =
        {| response := str "Inventory does not contain " ++ [dquote] ++ name ++ [dquote]
                       ++ str ".";
           nextState := s |})
  /\ (In name (inventory s) ->
     collected =
     {| response := str "Item " ++ [dquote] ++ name ++ [dquote]
                    ++ str " is already secured.";
        nextState := s |}).
Proof.
  intros NB. cbv zeta. split; intros H.
  - apply includesStr_not_In in H.
    rewrite (interpretCommand_collect item s NB), H. cbn [nextState inventory].
    rewrite !(interpretCommand_drop item _ NB). cbn [inventory].
    rewrite includesStr_last, H. cbn [negb nextState inventory].
    rewrite filter_app, (filter_absent _ _ H). cbn [filter].
    rewrite eqs_refl. cbn [negb]. rewrite app_nil_r.
    destruct s; repeat split; reflexivity.
  - apply includesStr_In in H.
    rewrite (interpretCommand_collect item s NB), H. reflexivity.
Qed.

Lemma collect_then_drop_witness :
  nextState (interpretCommand (dropCommand (str "sample"))
               (nextState (interpretCommand (collectCommand (str "sample")) baseState)))
  = baseState.
Proof.
  assert (NB : trim (str "sample") <> []) by (vm_compute; discriminate).
  destruct (collect_then_drop (str "sample") baseState NB) as [H _].
  destruct (H (fun absurd : In (trim (str "sample")) (inventory baseState) => absurd))
    as [_ [_ [R _]]].
  exact R.
Defined.

(** C4 as it was stated fails when the item is in the inventory before the
    collect: the collect changes nothing and the drop then removes the item,
    so the inventory does not come back to what it was. *)
Lemma collect_then_drop_held_item :
  holdingSample = nextState (interpretCommand (collectCommand (str "sample")) baseState)
  /\ inventory holdingSample = [str "sample"]
  /\ inventory (nextState (interpretCommand (dropCommand (str "sample"))
        (nextState (interpretCommand (collectCommand (str "sample")) holdingSample))))
     = []
  /\ inventory (nextState (interpretCommand (dropCommand (str "sample"))
        (nextState (interpretCommand (collectCommand (str "sample")) holdingSample))))
     <> inventory holdingSample.
Proof.
  repeat split; try reflexivity. vm_compute. discriminate.
Qed.

(** *** Turning around *)

(** C8, amended.  An input whose normalized form begins with turn and a
    space, contains around and contains neither left nor right turns the
    heading clockwise twice, which is the opposite heading, takes 3 energy
    (clamped), and the response names the heading reached after both
    rotations. *)
Theorem turn_around (input : jsstring) (s : AgentState) :
  startsWith (toLowerCase (trim input)) (str "turn ") = true ->
  includes (toLowerCase (trim input)) (str "left") = false ->
  includes (toLowerCase (trim input)) (str "right") = false ->
  includes (toLowerCase (trim input)) (str "around") = true ->
  interpretCommand input s =
  {| response := str "Executed 180" ++ [degree] ++ str " pivot. Heading "
                 ++ toUpperCase (headingName (clockwise (clockwise (heading s))))
                 ++ str ".";
     nextState := {| x := x s; y := y s;
                     heading := clockwise (clockwise (heading s));
                     energy := clampEnergy (energy s - 3);
                     inventory := inventory s; notes := notes s |} |}
  /\ clockwise (clockwise (heading s)) = opposite (heading s).
Proof.
  intros HT HL HR HA. split; [|apply clockwise_twice].
  unfold interpretCommand. cbv zeta.
  destruct (startsWith_inv _ _ HT) as [r E]. rewrite E in *.
  repeat decide_guard. rewrite HL, HR, HA, !nextHeading_Right. reflexivity.
Qed.

Lemma turn_around_witness :
  interpretCommand (str "Turn Around") baseState =
  {| response := str "Executed 180" ++ [degree] ++ str " pivot. Heading SOUTH.";
     nextState := {| x := 3; y := 3; heading := south; energy := 77;
                     inventory := []; notes := [str "Calibrated and ready."] |} |}.
Proof.
  exact (proj1 (turn_around (str "Turn Around") baseState
                  eq_refl eq_refl eq_refl eq_refl)).
Defined.

(** C8 as it was stated fails on an input that contains around and left: the
    test for left comes first, so the agent turns left once and pays 2. *)
Lemma turn_around_left :
  startsWith (toLowerCase (trim (str "turn around left"))) (str "turn ") = true
  /\ includes (toLowerCase (trim (str "turn around left"))) (str "around") = true
  /\ heading (nextState (interpretCommand (str "turn around left") baseState)) = west
  /\ energy (nextState (interpretCommand (str "turn around left") baseState)) = 78
  /\ heading (nextState (interpretCommand (str "turn around left") baseState))
     <> clockwise (clockwise (heading baseState)).
Proof. repeat split; try reflexivity. vm_compute. discriminate. Qed.

(** *** Moving *)

(** An input whose normalized form begins with move is claimed by no
    earlier rule. *)
Lemma move_prefix_unclaimed (normalized : jsstring) :
  startsWith normalized (str "move") = true -> claimedBeforeMove normalized = false.
Proof.
  intros H. destruct (startsWith_inv _ _ H) as [r ->]. reflexivity.
Qed.

(** C5, amended.  When no earlier rule claims the input, and its normalized
    form begins with move or contains forward, and names a cardinal direction
    (the first of north, south, east, west that it contains), the heading
    becomes that direction whether or not the step is blocked, the position
    becomes the cell one clamped step ahead in that direction, and 6 energy
    is taken (clamped).  An input that begins with move is never claimed by
    an earlier rule.  From the baseline, move north answers
    "Advanced north to (3, 4)." and leaves 74 energy. *)
Theorem move_in_direction (input : jsstring) (s : AgentState) (d : Heading) :
  claimedBeforeMove (toLowerCase (trim input)) = false ->
  asksToMove (toLowerCase (trim input)) = true ->
  requestedDirection (toLowerCase (trim input)) = Some d ->
  interpretCommand input s =
  {| response := str "Advanced " ++ headingName d ++ str " to ("
                 ++ numToString (fst (moveForward (withHeading s d))) ++ str ", "
                 ++ numToString (snd (moveForward (withHeading s d))) ++ str ").";
     nextState := {| x := fst (moveForward (withHeading s d));
                     y := snd (moveForward (withHeading s d));
                     heading := d;
                     energy := clampEnergy (energy s - 6);
                     inventory := inventory s; notes := notes s |} |}
  /\ (startsWith (toLowerCase (trim input)) (str "move") = true ->
      claimedBeforeMove (toLowerCase (trim input)) = false)
  /\ interpretCommand (str "move north") baseState =
     {| response := str "Advanced north to (3, 4).";
        nextState := {| x := 3; y := 4; heading := north; energy := 74;
                        inventory := []; notes := [str "Calibrated and ready."] |} |}.
Proof.
  intros HC HM HD. split; [| split; [apply move_prefix_unclaimed | reflexivity]].
  skip_earlier_rules HC.
  unfold asksToMove in HM. rewrite HM.
  unfold requestedDirection in HD.
  destruct (includes _ (str "north")); [injection HD as <-; reflexivity|].
  destruct (includes _ (str "south")); [injection HD as <-; reflexivity|].
  destruct (includes _ (str "east")); [injection HD as <-; reflexivity|].
  destruct (includes _ (str "west")); [injection HD as <-; reflexivity|].
  discriminate.
Qed.

Lemma move_in_direction_witness :
  interpretCommand (str "go forward, then west") atWestBorder =
  {| response := str "Advanced west to (0, 3).";
     nextState := {| x := 0; y := 3; heading := west; energy := 74;
                     inventory := []; notes := [str "Calibrated and ready."] |} |}.
Proof.
  exact (proj1 (move_in_direction (str "go forward, then west") atWestBorder west
                  eq_refl eq_refl eq_refl)).
Defined.

(** C5 as it was stated fails on an input that contains forward and a
    direction but is claimed by an earlier rule: here the note rule records
    the text, the heading stays north and no energy is taken. *)
Lemma note_forward_south :
  asksToMove (toLowerCase (trim (str "note forward south"))) = true
  /\ requestedDirection (toLowerCase (trim (str "note forward south"))) = Some south
  /\ heading (nextState (interpretCommand (str "note forward south") baseState)) = north
  /\ energy (nextState (interpretCommand (str "note forward south") baseState)) = 80
  /\ nextState (interpretCommand (str "note forward south") baseState)
     <> {| x := fst (moveForward (withHeading baseState south));
           y := snd (moveForward (withHeading baseState south));
           heading := south;
           energy := clampEnergy (energy baseState - 6);
           inventory := inventory baseState; notes := notes baseState |}.
Proof. repeat split; try reflexivity. vm_compute. discriminate. Qed.

(** C6.  A plain move or forward command is an input that reaches the
    movement rule and names no cardinal direction.  When the cell one clamped
    step ahead is the cell the agent is in, the response is
    "Boundary reached. Unable to move further forward." and the state is
    returned as it was, energy included; otherwise the agent moves to that
    cell and 6 energy is taken (clamped). *)
Theorem plain_forward (input : jsstring) (s : AgentState) :
  claimedBeforeMove (toLowerCase (trim input)) = false ->
  asksToMove (toLowerCase (trim input)) = true ->
  requestedDirection (toLowerCase (trim input)) = None ->
  (moveForward s = (x s, y s) ->
   interpretCommand input s =
   {| response := str "Boundary reached. Unable to move further forward.";
      nextState := s |})
  /\ (moveForward s <> (x s, y s) ->
      interpretCommand input s =
      {| response := str "Advanced forward to (" ++ numToString (fst (moveForward s))
                     ++ str ", " ++ numToString (snd (moveForward s)) ++ str ").";
         nextState := {| x := fst (moveForward s); y := snd (moveForward s);
                         heading := heading s;
                         energy := clampEnergy (energy s - 6);
                         inventory := inventory s; notes := notes s |} |})
  /\ (forall s0 : AgentState,
        x s0 = 0 -> heading s0 = west ->
        interpretCommand (str "move forward") s0 =
        {| response := str "Boundary reached. Unable to move further forward.";
           nextState := s0 |}).
Proof.
  intros HC HM HD.
  assert (HN : includes (toLowerCase (trim input)) (str "north") = false
               /\ includes (toLowerCase (trim input)) (str "south") = false
               /\ includes (toLowerCase (trim input)) (str "east") = false
               /\ includes (toLowerCase (trim input)) (str "west") = false).
  { unfold requestedDirection in HD.
    destruct (includes _ (str "north")); [discriminate|].
    destruct (includes _ (str "south")); [discriminate|].
    destruct (includes _ (str "east")); [discriminate|].
    destruct (includes _ (str "west")); [discriminate|].
    repeat split. }
  destruct HN as [N1 [N2 [N3 N4]]].
  split; [| split]; [intros HB | intros HB | intros s0 H0 HW].
  - skip_earlier_rules HC. unfold asksToMove in HM. rewrite HM, ?N1, ?N2, ?N3, ?N4, HB.
    cbn [fst snd]. rewrite !Z.eqb_refl. reflexivity.
  - skip_earlier_rules HC. unfold asksToMove in HM. rewrite HM, ?N1, ?N2, ?N3, ?N4.
    destruct (moveForward s) as [nx ny] eqn:E. cbn [fst snd].
    destruct (Z.eqb_spec nx (x s)) as [-> |]; [|reflexivity].
    destruct (Z.eqb_spec ny (y s)) as [-> |]; [|reflexivity].
    contradiction.
  - unfold interpretCommand. cbv zeta. repeat decide_guard.
    unfold moveForward. rewrite HW, H0. cbn [fst snd Z.max Z.sub Z.add Z.opp Z.compare].
    rewrite ?Z.eqb_refl. reflexivity.
Qed.

Lemma plain_forward_witness :
  interpretCommand (str "move forward") atWestBorder =
  {| response := str "Boundary reached. Unable to move further forward.";
     nextState := atWestBorder |}
  /\ energy (nextState (interpretCommand (str "move forward") baseState)) = 74.
Proof.
  destruct (plain_forward (str "move forward") atWestBorder eq_refl eq_refl eq_refl)
    as [Blocked _].
  destruct (plain_forward (str "move forward") baseState eq_refl eq_refl eq_refl)
    as [_ [Free _]].
  split.
  - exact (Blocked eq_refl).
  - rewrite Free; [reflexivity | discriminate].
Defined.

(** *** Teleporting *)

Lemma target_on_grid (tx ty : Z) :
  0 <= tx <= 6 -> 0 <= ty <= 6 ->
  (tx <? 0) || (ty <? 0) || (tx >=? GRID_SIZE) || (ty >=? GRID_SIZE) = false.
Proof.
  unfold GRID_SIZE. intros Hx Hy. rewrite !Z.geb_leb.
  destruct (Z.ltb_spec tx 0), (Z.ltb_spec ty 0), (Z.leb_spec 7 tx), (Z.leb_spec 7 ty);
    cbn; try reflexivity; lia.
Qed.

Lemma target_off_grid (tx ty : Z) :
  ~ (0 <= tx <= 6 /\ 0 <= ty <= 6) ->
  (tx <? 0) || (ty <? 0) || (tx >=? GRID_SIZE) || (ty >=? GRID_SIZE) = true.
Proof.
  unfold GRID_SIZE. intros H. rewrite !Z.geb_leb.
  destruct (Z.ltb_spec tx 0), (Z.ltb_spec ty 0), (Z.leb_spec 7 tx), (Z.leb_spec 7 ty);
    cbn; try reflexivity; lia.
Qed.

Lemma isDigit_not_white (c : N) : isDigit c = true -> isWhiteSpace c = false.
Proof.
  unfold isDigit. intros H. apply andb_true_iff in H as [A B]. apply N.leb_le in A, B.
  destruct (isWhiteSpace c) eqn:W; [|reflexivity].
  apply isWhiteSpace_spec in W. lia.
Qed.

Lemma digitsPrefix_all (ds : jsstring) :
  forallb isDigit ds = true -> digitsPrefix ds = ds.
Proof.
  induction ds as [| c ds IH]; cbn; intros H; [reflexivity|].
  apply andb_true_iff in H as [Hc Hr]. rewrite Hc, (IH Hr). reflexivity.
Qed.

Lemma parseInt_digits (ds : jsstring) :
  ds <> [] -> forallb isDigit ds = true -> parseInt ds = Some (digitsValue ds).
Proof.
  destruct ds as [| c ds]; [contradiction|]. intros _ H.
  pose proof H as H'. cbn in H'. apply andb_true_iff in H' as [Hc _].
  unfold parseInt. cbn [trimStart]. rewrite (isDigit_not_white c Hc).
  unfold isDigit in Hc. apply andb_true_iff in Hc as [A B]. apply N.leb_le in A, B.
  destruct (N.eqb_spec c 45); [lia|]. destruct (N.eqb_spec c 43); [lia|].
  rewrite (digitsPrefix_all _ H). rewrite Z.mul_1_l. reflexivity.
Qed.

(** On the text of an integer, [parseInt] reads the integer. *)
Lemma parseInt_integerText (t : jsstring) :
  isIntegerText t = true -> parseInt t = Some (integerValue t).
Proof.
  unfold isIntegerText, integerValue.
  destruct t as [| c t]; [discriminate|].
  destruct (N.eqb_spec c 45) as [-> | NE].
  - intros H. apply andb_true_iff in H as [H1 H2].
    destruct t as [| d t]; [discriminate|].
    unfold parseInt. cbn [trimStart isWhiteSpace]. cbn -[digitsPrefix digitsValue Z.mul].
    rewrite (digitsPrefix_all _ H2). cbv iota.
    destruct (digitsValue (d :: t)); reflexivity.
  - assert (E : (match c with 45%N => negb (isEmpty t) && forallb isDigit t
                 | _ => negb (isEmpty (c :: t)) && forallb isDigit (c :: t) end)
                = (negb (isEmpty (c :: t)) && forallb isDigit (c :: t))).
    { destruct c as [| p]; [reflexivity|].
      do 6 (destruct p as [p | p |]; try reflexivity). contradiction. }
    rewrite E. intros H. apply andb_true_iff in H as [_ H].
    rewrite (parseInt_digits (c :: t)) by (discriminate || exact H).
    f_equal. destruct c as [| p]; [reflexivity|].
    do 6 (destruct p as [p | p |]; try reflexivity). contradiction.
Qed.

(** C3, amended.  Let the normalized input be path, a space and a remainder.
    The remainder is trimmed and cut at its commas.  When that gives two
    parts and each part, trimmed, begins with a decimal integer (an optional
    sign and digits; what follows the digits is not looked at) that lies in
    [0,6], the agent goes to these two integers, 10 energy is taken
    (clamped) and the response confirms the target.  When it gives two parts
    of which one begins with no integer or with an integer outside [0,6],
    the response is the out-of-bounds text and the state is returned as it
    was.  When it does not give two parts, the response is the usage text and
    the state is returned as it was.  From the baseline, path 0,0 answers
    "Navigated directly to (0, 0)." and leaves 70 energy, and path 9,9
    answers with the out-of-bounds text and the baseline state. *)
Theorem path_command (input rest : jsstring) (s : AgentState) :
  toLowerCase (trim input) = str "path " ++ rest ->
  (forall c0 c1 tx ty,
      split 44 (trim rest) = [c0; c1] ->
      parseInt (trim c0) = Some tx -> parseInt (trim c1) = Some ty ->
      0 <= tx <= 6 -> 0 <= ty <= 6 ->
      interpretCommand input s =
      {| response := str "Navigated directly to (" ++ numToString tx ++ str ", "
                     ++ numToString ty ++ str ").";
         nextState := {| x := tx; y := ty; heading := heading s;
                         energy := clampEnergy (energy s - 10);
                         inventory := inventory s; notes := notes s |} |})
  /\ (forall c0 c1,
        split 44 (trim rest) = [c0; c1] ->
        parseInt (trim c0) = None \/ parseInt (trim c1) = None
        \/ (exists tx ty, parseInt (trim c0) = Some tx /\ parseInt (trim c1) = Some ty
                          /\ ~ (0 <= tx <= 6 /\ 0 <= ty <= 6)) ->
        interpretCommand input s = {| response := outOfBoundsResponse; nextState := s |})
  /\ (List.length (split 44 (trim rest)) <> 2%nat ->
      interpretCommand input s = {| response := pathUsageResponse; nextState := s |})
  /\ interpretCommand (str "path 0,0") baseState =
     {| response := str "Navigated directly to (0, 0).";
        nextState := {| x := 0; y := 0; heading := north; energy := 70;
                        inventory := []; notes := [str "Calibrated and ready."] |} |}
  /\ interpretCommand (str "path 9,9") baseState =
     {| response := outOfBoundsResponse; nextState := baseState |}
  /\ includes outOfBoundsResponse (str "out of bounds") = true.
Proof.
  intros E.
  assert (Step : trim (replace (str "path " ++ rest) (str "path") []) = trim rest)
    by reflexivity.
  repeat split; try reflexivity.
  - intros c0 c1 tx ty HS H0 H1 Hx Hy.
    unfold interpretCommand. cbv zeta. rewrite E. repeat decide_guard.
    rewrite Step, HS, H0, H1, (target_on_grid tx ty Hx Hy). reflexivity.
  - intros c0 c1 HS H.
    unfold interpretCommand. cbv zeta. rewrite E. repeat decide_guard.
    rewrite Step, HS.
    destruct H as [H | [H | [tx [ty [H0 [H1 H]]]]]].
    + rewrite H. destruct (parseInt (trim c1)); try reflexivity.
    + rewrite H. destruct (parseInt (trim c0)); reflexivity.
    + rewrite H0, H1, (target_off_grid tx ty H). reflexivity.
  - intros HL.
    unfold interpretCommand. cbv zeta. rewrite E. repeat decide_guard.
    rewrite Step.
    destruct (split 44 (trim rest)) as [| a [| b [| c l]]]; try reflexivity.
    cbn in HL. contradiction.
Qed.

Lemma path_command_witness :
  interpretCommand (str " PATH 6, 2 ") baseState =
  {| response := str "Navigated directly to (6, 2).";
     nextState := {| x := 6; y := 2; heading := north; energy := 70;
                     inventory := []; notes := [str "Calibrated and ready."] |} |}.
Proof.
  destruct (path_command (str " PATH 6, 2 ") (str "6, 2") baseState eq_refl)
    as [Go _].
  apply (Go (str "6") (str " 2") 6 2); try reflexivity; lia.
Defined.

(** C3 as it was stated fails on a remainder whose parts are not integers
    but begin with one: of 3abc only the leading 3 is read, and the agent
    goes to (3, 4). *)
Lemma path_trailing_text :
  toLowerCase (trim (str "path 3abc,4")) = str "path " ++ str "3abc,4"
  /\ split 44 (trim (str "3abc,4")) = [str "3abc"; str "4"]
  /\ isIntegerText (str "3abc") = false
  /\ interpretCommand (str "path 3abc,4") baseState =
     {| response := str "Navigated directly to (3, 4).";
        nextState := {| x := 3; y := 4; heading := north; energy := 70;
                        inventory := []; notes := [str "Calibrated and ready."] |} |}
  /\ nextState (interpretCommand (str "path 3abc,4") baseState) <> baseState.
Proof. repeat split; try reflexivity. vm_compute. discriminate. Qed.

(* ===================================================================== *)
(** ** Further properties of the interpreter *)
(* ===================================================================== *)

(** *** White space around the input *)

Lemma trimStart_idem (s : jsstring) : trimStart (trimStart s) = trimStart s.
Proof.
  induction s as [| c s IH]; [reflexivity|]. cbn.
  destruct (isWhiteSpace c) eqn:W; [exact IH | cbn; rewrite W; reflexivity].
Qed.

Lemma trimEnd_idem (s : jsstring) : trimEnd (trimEnd s) = trimEnd s.
Proof.
  induction s as [| c s IH]; [reflexivity|]. cbn.
  destruct (trimEnd s) as [| d r] eqn:E.
  - destruct (isWhiteSpace c) eqn:W; cbn; [reflexivity | rewrite W; reflexivity].
  - change (trimEnd (c :: d :: r)) with
      (match trimEnd (d :: r) with [] => if isWhiteSpace c then [] else [c] | q => c :: q end).
    rewrite IH. reflexivity.
Qed.

Lemma trimStart_trimEnd (s : jsstring) : trimStart (trimEnd s) = trimEnd (trimStart s).
Proof.
  induction s as [| c s IH]; [reflexivity|].
  cbn [trimStart]. destruct (isWhiteSpace c) eqn:W.
  - cbn [trimEnd]. destruct (trimEnd s) as [| d r] eqn:E.
    + rewrite W. cbn. rewrite <- IH. reflexivity.
    + cbn [trimStart]. rewrite W, <- IH. reflexivity.
  - cbn [trimEnd]. destruct (trimEnd s) as [| d r] eqn:E; rewrite ?W; cbn [trimStart];
      rewrite W; reflexivity.
Qed.

Lemma trim_idem (s : jsstring) : trim (trim s) = trim s.
Proof.
  unfold trim. rewrite trimStart_trimEnd, trimStart_idem, trimEnd_idem. reflexivity.
Qed.

(** The shape of an input whose normalized form begins with a verb and a
    space: white space, the verb in some case, a space, and a text that is
    not blank. *)
Lemma verb_shape (k : N) (kw input : jsstring) :
  Forall (fun c => c <> 105%N) (k :: kw) ->
  startsWith (toLowerCase (trim input)) ((k :: kw) ++ [32%N]) = true ->
  exists w u t,
    input = w ++ u ++ 32%N :: t
    /\ forallb isWhiteSpace w = true
    /\ toLowerCase u = k :: kw
    /\ List.length u = List.length (k :: kw)
    /\ trimEnd t <> []
    /\ trim input = u ++ 32%N :: trimEnd t.
Proof.
  intros HF H.
  destruct (trimStart_split input) as [w [Ein Hw]].
  destruct (lower_startsWith_inv (k :: kw) HF (trim input) [32%N] H)
    as [u [u2 [Et [L1 [L2 L3]]]]].
  pose proof Et as Etrim.
  unfold trim in Et. apply trimEnd_app_inv in Et as [t1 [Et1 Et2]].
  destruct u2 as [| c5 u5]; [cbn in L3; discriminate|].
  change (toLowerCase (c5 :: u5)) with (toLowerUnit c5 ++ toLowerCase u5) in L3.
  destruct (toLowerUnit c5) as [| d r] eqn:E5; [apply toLowerUnit_nonempty in E5; contradiction|].
  cbn in L3. apply andb_true_iff in L3 as [Hd _]. apply N.eqb_eq in Hd. subst d.
  assert (r = []) as -> by (apply (toLowerUnit_head c5 32%N r E5); discriminate).
  apply toLowerUnit_white_inv in E5; [subst c5 | reflexivity].
  pose proof Et2 as Full.
  apply trimEnd_cons_inv in Et2 as [t2 [-> Et2]].
  assert (NB : trimEnd t2 <> []).
  { intros B. cbn in Full. rewrite B in Full. cbn in Full. discriminate. }
  exists w, u, t2. rewrite Et1 in Ein.
  repeat split; try assumption.
  rewrite Et2. exact Etrim.
Qed.

(** The argument of a verb is what follows the verb in the trimmed input,
    trimmed in its turn. *)
Lemma argument_is_remainder (k : N) (kw input : jsstring) :
  Forall (fun c => c <> 105%N) (k :: kw) -> isWhiteSpace k = false ->
  startsWith (toLowerCase (trim input)) ((k :: kw) ++ [32%N]) = true ->
  trim (slice input (indexOf (toLowerCase input) (k :: kw)
                     + Z.of_nat (List.length (k :: kw))))
  = trim (skipn (List.length (k :: kw)) (trim input)).
Proof.
  intros HF Hk H.
  destruct (verb_shape k kw input HF H) as [w [u [t [Ein [Hw [L1 [L2 [NB ET]]]]]]]].
  assert (EL : toLowerCase input = w ++ k :: kw ++ toLowerCase (32%N :: t)).
  { rewrite Ein at 1. rewrite !toLowerCase_app, (toLowerCase_white w Hw), L1. reflexivity. }
  unfold indexOf. rewrite EL, (indexOfNat_after_white w k kw _ Hw Hk).
  rewrite <- L2, <- Nat2Z.inj_add, slice_of_nat.
  rewrite Ein at 1. rewrite app_assoc, <- length_app, skipn_app, skipn_all, Nat.sub_diag.
  rewrite ET, skipn_app, skipn_all, Nat.sub_diag.
  cbn [skipn app]. unfold trim. cbn [trimStart isWhiteSpace]. cbn -[trimStart trimEnd].
  rewrite trimStart_trimEnd, trimEnd_idem. reflexivity.
Qed.

Lemma argument_of_trimmed (k : N) (kw input : jsstring) :
  Forall (fun c => c <> 105%N) (k :: kw) -> isWhiteSpace k = false ->
  startsWith (toLowerCase (trim input)) ((k :: kw) ++ [32%N]) = true ->
  trim (slice (trim input) (indexOf (toLowerCase (trim input)) (k :: kw)
                            + Z.of_nat (List.length (k :: kw))))
  = trim (slice input (indexOf (toLowerCase input) (k :: kw)
                       + Z.of_nat (List.length (k :: kw)))).
Proof.
  intros HF Hk H.
  rewrite (argument_is_remainder k kw input HF Hk H).
  rewrite (argument_is_remainder k kw (trim input) HF Hk) by (rewrite trim_idem; exact H).
  rewrite trim_idem. reflexivity.
Qed.

(** X1. White space before and after the input never matters: the
    interpreter answers the trimmed input as it answers the input, response
    and state alike. *)
Theorem surrounding_white_space_ignored (input : jsstring) (s : AgentState) :
  interpretCommand (trim input) s = interpretCommand input s.
Proof.
  unfold interpretCommand. cbv zeta. rewrite trim_idem.
  destruct (isEmpty (toLowerCase (trim input))); [reflexivity|].
  destruct (includesStr _ (toLowerCase (trim input))); [reflexivity|].
  destruct (includesStr _ (toLowerCase (trim input))); [reflexivity|].
  destruct (startsWith _ (str "note ")) eqn:G1.
  { assert (M : trim (slice (trim input)
                        (indexOf (toLowerCase (trim input)) (str "note") + 4))
                = trim (slice input (indexOf (toLowerCase input) (str "note") + 4))).
    { apply (argument_of_trimmed 110%N [111; 116; 101]%N input);
        [repeat constructor; discriminate | reflexivity | exact G1]. }
    rewrite M. reflexivity. }
  destruct (startsWith _ (str "collect ")) eqn:G2.
  { assert (M : trim (slice (trim input)
                        (indexOf (toLowerCase (trim input)) (str "collect") + 7))
                = trim (slice input (indexOf (toLowerCase input) (str "collect") + 7))).
    { apply (argument_of_trimmed 99%N [111; 108; 108; 101; 99; 116]%N input);
        [repeat constructor; discriminate | reflexivity | exact G2]. }
    rewrite M. reflexivity. }
  destruct (startsWith _ (str "drop ")) eqn:G3.
  { assert (M : trim (slice (trim input)
                        (indexOf (toLowerCase (trim input)) (str "drop") + 4))
                = trim (slice input (indexOf (toLowerCase input) (str "drop") + 4))).
    { apply (argument_of_trimmed 100%N [114; 111; 112]%N input);
        [repeat constructor; discriminate | reflexivity | exact G3]. }
    rewrite M. reflexivity. }
  reflexivity.
Qed.

(** *** What a session keeps *)

(** A property that every command keeps is kept by every session. *)
Lemma runSession_invariant (P : AgentState -> Prop) :
  (forall input s, P s -> P (nextState (interpretCommand input s))) ->
  forall commands s, P s -> P (runSession commands s).
Proof.
  intros Step. unfold runSession.
  induction commands as [| c cs IH]; intros s Hs; cbn [fold_left]; [exact Hs|].
  apply IH. unfold handleSubmit.
  destruct (isEmpty (trim c)); [exact Hs | apply Step, Hs].
Qed.

Lemma NoDup_snoc (l : list jsstring) (a : jsstring) :
  NoDup l -> ~ In a l -> NoDup (l ++ [a]).
Proof.
  intros Hl Ha. induction Hl as [| b l Hb Hl IH]; cbn.
  - constructor; [intros [] | constructor].
  - constructor.
    + rewrite in_app_iff. cbn. intros [H | [H | []]]; [contradiction|].
      subst. apply Ha. left. reflexivity.
    + apply IH. intros H. apply Ha. right. exact H.
Qed.

Lemma interpretCommand_NoDup (input : jsstring) (s : AgentState) :
  NoDup (inventory s) -> NoDup (inventory (nextState (interpretCommand input s))).
Proof.
  intros H. unfold interpretCommand.
  interp_cases; cbn [nextState inventory]; try exact H.
  - apply NoDup_snoc; [exact H|]. apply includesStr_not_In. assumption.
  - apply NoDup_filter, H.
  - constructor.
Qed.

(** X2. The inventory never holds an item twice: a state without duplicates
    is answered by a state without duplicates, whatever the input, and a
    session that starts from one ends in one. *)
Theorem inventory_stays_duplicate_free (input : jsstring) (commands : list jsstring)
    (s : AgentState) :
  NoDup (inventory s) ->
  NoDup (inventory (nextState (interpretCommand input s)))
  /\ NoDup (inventory (runSession commands s)).
Proof.
  intros H. split.
  - apply interpretCommand_NoDup, H.
  - apply (runSession_invariant (fun st => NoDup (inventory st)));
      [intros i st; apply interpretCommand_NoDup | exact H].
Qed.

Lemma inventory_stays_duplicate_free_witness :
  NoDup (inventory (runSession [str "collect gem"; str "collect gem"; str "collect ore"]
                               baseState)).
Proof.
  apply (inventory_stays_duplicate_free (str "collect gem")
           [str "collect gem"; str "collect gem"; str "collect ore"] baseState).
  constructor.
Defined.

Lemma interpretCommand_item_names (input : jsstring) (s : AgentState) :
  Forall isItemName (inventory s) ->
  Forall isItemName (inventory (nextState (interpretCommand input s))).
Proof.
  intros H. unfold interpretCommand.
  interp_cases; cbn [nextState inventory]; try exact H.
  - apply Forall_app. split; [exact H|]. constructor; [|constructor].
    split; [| apply trim_idem].
    intros E. rewrite E in *. discriminate.
  - apply (incl_Forall (incl_filter _ _) H).
  - constructor.
Qed.

(** X3. The inventory holds item names only, that is texts that are not
    empty and have no white space around them: every command keeps this, and
    so does every session. *)
Theorem inventory_holds_item_names (input : jsstring) (commands : list jsstring)
    (s : AgentState) :
  Forall isItemName (inventory s) ->
  Forall isItemName (inventory (nextState (interpretCommand input s)))
  /\ Forall isItemName (inventory (runSession commands s)).
Proof.
  intros H. split.
  - apply interpretCommand_item_names, H.
  - apply (runSession_invariant (fun st => Forall isItemName (inventory st)));
      [intros i st; apply interpretCommand_item_names | exact H].
Qed.

Lemma inventory_holds_item_names_witness :
  Forall isItemName (inventory (runSession [str "  Collect   Blue Gem  "] baseState)).
Proof.
  apply (inventory_holds_item_names (str "status") [str "  Collect   Blue Gem  "] baseState).
  constructor.
Defined.

(** X4. Notes are only ever added at the end, one at a time, and never
    empty ones: a command either resets the agent to the baseline, or leaves
    the notes as they are, or appends one note that is not empty and answers
    "Noted: " followed by that note. *)
Theorem notes_only_grow (input : jsstring) (s : AgentState) :
  nextState (interpretCommand input s) = baseState
  \/ notes (nextState (interpretCommand input s)) = notes s
  \/ exists message,
       message <> []
       /\ notes (nextState (interpretCommand input s)) = notes s ++ [message]
       /\ response (interpretCommand input s) = str "Noted: " ++ message.
Proof.
  unfold interpretCommand.
  interp_cases; cbn [nextState notes response];
    try (right; left; reflexivity); try (left; reflexivity).
  right; right. eexists. repeat split.
  intros E. rewrite E in *. discriminate.
Qed.



(** X6. A response that reports a problem or only gives information comes
    with the state as it was: when the response begins with one of the
    diagnostic texts, the state returned is the state received. *)
Theorem diagnostics_keep_state (input : jsstring) (s : AgentState) :
  existsb (startsWith (response (interpretCommand input s))) diagnosticPrefixes = true ->
  nextState (interpretCommand input s) = s.
Proof.
  unfold interpretCommand.
  interp_cases; cbn [response nextState]; intros D; try reflexivity;
    unfold diagnosticPrefixes, str in D; cbn in D; discriminate.
Qed.

Lemma diagnostics_keep_state_witness :
  nextState (interpretCommand (str "energy lots") holdingSample) = holdingSample.
Proof.
  apply (diagnostics_keep_state (str "energy lots") holdingSample). reflexivity.
Defined.


(** X8. Energy rises only by resting, by setting it, or by a reset: from a
    state whose energy is in [0,100], any other command leaves the energy
    where it was or lowers it. *)
Theorem energy_rises_only_on_purpose (input : jsstring) (s : AgentState) :
  energyInRange s ->
  energy (nextState (interpretCommand input s)) <= energy s
  \/ includesStr restWords (toLowerCase (trim input)) = true
  \/ startsWith (toLowerCase (trim input)) (str "energy ") = true
  \/ includesStr resetWords (toLowerCase (trim input)) = true.
Proof.
  unfold energyInRange, restWords, resetWords, interpretCommand. intros H.
  interp_cases; cbn [nextState energy]; try tauto;
    left; unfold clampEnergy; lia.
Qed.

Lemma energy_rises_only_on_purpose_witness :
  energy (nextState (interpretCommand (str "scan") baseState)) <= energy baseState.
Proof.
  assert (H : energyInRange baseState) by (unfold energyInRange; cbn; lia).
  destruct (energy_rises_only_on_purpose (str "scan") baseState H) as [L | [A | [A | A]]];
    [exact L | discriminate A | discriminate A | discriminate A].
Defined.

(** *** Setting the energy, resting, scanning *)

(** X9. The energy command.  When the normalized input is energy, a space
    and a remainder, the remainder is trimmed and read as an integer the way
    [parseInt] does.  If no integer is read, the response is a prompt and
    the state is returned as it was.  Otherwise the energy becomes that
    integer brought into [0,100], whatever it was before, nothing else
    changes, and the response names the new energy. *)
Theorem energy_command (input rest : jsstring) (s : AgentState) :
  toLowerCase (trim input) = str "energy " ++ rest ->
  (parseInt (trim rest) = None ->
   interpretCommand input s = {| response := energyPrompt; nextState := s |})
  /\ (forall value,
        parseInt (trim rest) = Some value ->
        interpretCommand input s =
        {| response := str "Energy recalibrated to "
                       ++ numToString (Z.max 0 (Z.min 100 value)) ++ str "%.";
           nextState := {| x := x s; y := y s; heading := heading s;
                           energy := Z.max 0 (Z.min 100 value);
                           inventory := inventory s; notes := notes s |} |}).
Proof.
  intros E.
  assert (Step : trim (replace (str "energy " ++ rest) (str "energy") []) = trim rest)
    by reflexivity.
  split.
  - intros HP. unfold interpretCommand. cbv zeta. rewrite E. repeat decide_guard.
    rewrite Step, HP. reflexivity.
  - intros value HP. unfold interpretCommand. cbv zeta. rewrite E. repeat decide_guard.
    rewrite Step, HP. reflexivity.
Qed.

Lemma energy_command_witness :
  interpretCommand (str "Energy 250 please") atWestBorder =
  {| response := str "Energy recalibrated to 100%.";
     nextState := {| x := 0; y := 3; heading := west; energy := 100; inventory := [];
                     notes := [str "Calibrated and ready."] |} |}.
Proof.
  destruct (energy_command (str "Energy 250 please") (str "250 please") atWestBorder
              eq_refl) as [_ Assign].
  exact (Assign 250 eq_refl).
Defined.

Lemma interpretCommand_rest (s : AgentState) :
  interpretCommand (str "rest") s =
  {| response := str "Resting... Energy now at " ++ numToString (clampEnergy (energy s + 15))
                 ++ str "%.";
     nextState := {| x := x s; y := y s; heading := heading s;
                     energy := clampEnergy (energy s + 15);
                     inventory := inventory s; notes := notes s |} |}.
Proof. reflexivity. Qed.

Lemma rest_session_energy (n : nat) :
  forall s, energyInRange s ->
  energy (runSession (repeat (str "rest") n) s) = Z.min 100 (energy s + 15 * Z.of_nat n).
Proof.
  unfold energyInRange.
  induction n as [| n IH]; intros s Hs.
  - cbn [repeat runSession fold_left]. lia.
  - cbn [repeat]. unfold runSession. cbn [fold_left].
    change (fold_left (fun st command => handleSubmit command st) (repeat (str "rest") n)
              (handleSubmit (str "rest") s))
      with (runSession (repeat (str "rest") n) (handleSubmit (str "rest") s)).
    change (handleSubmit (str "rest") s) with (nextState (interpretCommand (str "rest") s)).
    rewrite interpretCommand_rest. cbn [nextState].
    rewrite IH; cbn [energy]; unfold clampEnergy; lia.
Qed.

(** X10. Resting fills the energy up and stops at 100: from a state whose
    energy is in [0,100], a session of n rests ends with the energy
    min(100, energy + 15 n), so seven rests or more always end at 100. *)
Theorem rest_saturates (n : nat) (s : AgentState) :
  energyInRange s ->
  energy (runSession (repeat (str "rest") n) s) = Z.min 100 (energy s + 15 * Z.of_nat n)
  /\ ((7 <= n)%nat -> energy (runSession (repeat (str "rest") n) s) = 100).
Proof.
  intros Hs. pose proof (rest_session_energy n s Hs) as E.
  split; [exact E|]. intros Hn. rewrite E. unfold energyInRange in Hs. lia.
Qed.

Lemma rest_saturates_witness :
  energy (runSession (repeat (str "rest") 2) baseState) = 100.
Proof.
  assert (H : energyInRange baseState) by (unfold energyInRange; cbn; lia).
  rewrite (proj1 (rest_saturates 2 baseState H)). reflexivity.
Defined.

Lemma interpretCommand_note (text : jsstring) (s : AgentState) :
  trim text <> [] ->
  interpretCommand (noteCommand text) s =
  {| response := str "Noted: " ++ trim text;
     nextState := {| x := x s; y := y s; heading := heading s; energy := energy s;
                     inventory := inventory s; notes := notes s ++ [trim text] |} |}.
Proof.
  intros NB. pose proof (trim_not_blank text NB) as NE.
  unfold interpretCommand, noteCommand. cbv zeta.
  assert (Message : trim (slice (str "note " ++ text)
                      (indexOf (toLowerCase (str "note " ++ text)) (str "note") + 4))
                    = trim text).
  { rewrite toLowerCase_app.
    change (toLowerCase (str "note ")) with (str "note" ++ [32%N]).
    rewrite <- app_assoc, indexOf_prefix.
    change (0 + 4) with (Z.of_nat 4). rewrite slice_of_nat. reflexivity. }
  rewrite Message.
  assert (Norm : toLowerCase (trim (str "note " ++ text))
                 = str "note " ++ toLowerCase (trimEnd text)).
  { unfold trim. change (trimStart (str "note " ++ text)) with (str "note " ++ text).
    rewrite (trimEnd_app _ _ NE), toLowerCase_app. reflexivity. }
  rewrite Norm. repeat decide_guard.
  destruct (trim text) eqn:T; [contradiction|]. cbn [isEmpty]. reflexivity.
Qed.

Lemma slice_last_one {A : Type} (l : list A) (a : A) : slice (l ++ [a]) (-1) = [a].
Proof.
  unfold slice. cbn [Z.ltb Z.compare]. rewrite length_app. cbn [List.length].
  replace (Z.to_nat (Z.max (Z.of_nat (List.length l + 1) + -1) 0)) with (List.length l) by lia.
  rewrite skipn_app, skipn_all, Nat.sub_diag. reflexivity.
Qed.

(** X11. The scan.  When the normalized input is one of the scan words, the
    response is the preamble followed by the last note, or by
    "No mission notes." when there is none; 5 energy is taken (clamped) and
    nothing else changes. *)
Theorem scan_reports_last_note (input : jsstring) (s : AgentState) :
  In (toLowerCase (trim input)) scanWords ->
  interpretCommand input s =
  {| response := scanPreamble ++ last (notes s) (str "No mission notes.");
     nextState := {| x := x s; y := y s; heading := heading s;
                     energy := clampEnergy (energy s - 5);
                     inventory := inventory s; notes := notes s |} |}.
Proof.
  intros HW.
  assert (Report :
    (if Z.of_nat (List.length (notes s)) =? 0 then str "No mission notes."
     else match slice (notes s) (-1) with n :: _ => n | [] => str "undefined" end)
    = last (notes s) (str "No mission notes.")).
  { destruct (notes s) as [| n l] eqn:E; [reflexivity|].
    destruct (exists_last (l := n :: l)) as [l' [a ->]]; [discriminate|].
    rewrite slice_last_one, last_last, length_app. cbn [List.length].
    destruct (Z.eqb_spec (Z.of_nat (List.length l' + 1)) 0); [lia | reflexivity]. }
  unfold interpretCommand. cbv zeta.
  cbn in HW. destruct HW as [<- | [<- | [<- | [<- | []]]]];
    repeat decide_guard; unfold scanPreamble; do 2 f_equal; exact Report.
Qed.

Lemma scan_reports_last_note_witness :
  response (interpretCommand (str " Scan Perimeter ") baseState)
  = str "Scan complete. No threats detected. Notes: Calibrated and ready.".
Proof.
  rewrite (scan_reports_last_note (str " Scan Perimeter ") baseState).
  - reflexivity.
  - right; right; left. reflexivity.
Defined.

(** X12. A scan reports the note that was just taken: after note and a text
    that is not blank, the scan answers with the preamble followed by that
    text, trimmed and in its original case. *)
Theorem scan_after_note (text : jsstring) (s : AgentState) :
  trim text <> [] ->
  response (interpretCommand (str "scan")
              (nextState (interpretCommand (noteCommand text) s)))
  = scanPreamble ++ trim text.
Proof.
  intros NB. rewrite (interpretCommand_note text s NB). cbn [nextState].
  rewrite scan_reports_last_note by (left; reflexivity).
  cbn [response notes]. rewrite last_last. reflexivity.
Qed.

Lemma scan_after_note_witness :
  response (interpretCommand (str "scan")
              (nextState (interpretCommand (noteCommand (str " Hold the Ridge ")) baseState)))
  = str "Scan complete. No threats detected. Notes: Hold the Ridge".
Proof.
  rewrite (scan_after_note (str " Hold the Ridge ") baseState).
  - reflexivity.
  - vm_compute. discriminate.
Defined.

(** *** Inventory as a set *)

Lemma in_filter_other (name other : jsstring) (l : list jsstring) :
  In other (filter (fun entry => negb (eqs entry name)) l) <-> In other l /\ other <> name.
Proof.
  rewrite filter_In. split; intros [H1 H2]; split; try exact H1.
  - intros ->. rewrite eqs_refl in H2. discriminate.
  - destruct (eqs other name) eqn:E; [apply eqs_eq in E; contradiction | reflexivity].
Qed.

(** X13. Collect and drop treat the inventory as a set.  For an argument
    that is not blank, whose name is the argument trimmed: after collect the
    inventory holds the name, after drop it does not, and in both cases every
    other item is held after exactly when it was held before; neither touches
    anything but the inventory. *)
Theorem collect_and_drop_as_set (item : jsstring) (s : AgentState) :
  trim item <> [] ->
  let name := trim item in
  let collected := nextState (interpretCommand (collectCommand item) s) in
  let dropped := nextState (interpretCommand (dropCommand item) s) in
  (forall other, In other (inventory collected) <-> In other (inventory s) \/ other = name)
  /\ (forall other, In other (inventory dropped) <-> In other (inventory s) /\ other <> name)
  /\ (x collected, y collected, heading collected, energy collected, notes collected)
     = (x s, y s, heading s, energy s, notes s)
  /\ (x dropped, y dropped, heading dropped, energy dropped, notes dropped)
     = (x s, y s, heading s, energy s, notes s).
Proof.
  intros NB. cbv zeta.
  rewrite (interpretCommand_collect item s NB), (interpretCommand_drop item s NB).
  destruct (includesStr (inventory s) (trim item)) eqn:H; cbn [negb nextState inventory];
    (split; [| split; [| split; reflexivity]]); intros other.
  - apply includesStr_In in H. split; [tauto|]. intros [Ho | ->]; assumption.
  - apply in_filter_other.
  - rewrite in_app_iff. cbn. intuition congruence.
  - apply includesStr_not_In in H. split; [|tauto].
    intros Ho. split; [exact Ho|]. intros ->. contradiction.
Qed.

Lemma collect_and_drop_as_set_witness :
  In (str "Ore") (inventory (nextState (interpretCommand (collectCommand (str " Ore "))
                                          holdingSample)))
  /\ In (str "sample") (inventory (nextState (interpretCommand (collectCommand (str " Ore "))
                                                 holdingSample))).
Proof.
  assert (NB : trim (str " Ore ") <> []) by (vm_compute; discriminate).
  destruct (collect_and_drop_as_set (str " Ore ") holdingSample NB) as [C _].
  split; apply C; [right; reflexivity | left; left; reflexivity].
Defined.

(** X14. Collecting or dropping twice is the same as doing it once: the
    second collect finds the item held, the second drop finds it gone, and
    both return the state as they received it. *)
Theorem collect_and_drop_idempotent (item : jsstring) (s : AgentState) :
  trim item <> [] ->
  nextState (interpretCommand (collectCommand item)
               (nextState (interpretCommand (collectCommand item) s)))
  = nextState (interpretCommand (collectCommand item) s)
  /\ nextState (interpretCommand (dropCommand item)
                  (nextState (interpretCommand (dropCommand item) s)))
     = nextState (interpretCommand (dropCommand item) s).
Proof.
  intros NB. split.
  - rewrite (interpretCommand_collect item _ NB).
    assert (H : includesStr
                  (inventory (nextState (interpretCommand (collectCommand item) s)))
                  (trim item) = true).
    { apply includesStr_In.
      apply (proj1 (collect_and_drop_as_set item s NB)). right. reflexivity. }
    rewrite H. reflexivity.
  - rewrite (interpretCommand_drop item _ NB).
    assert (H : includesStr
                  (inventory (nextState (interpretCommand (dropCommand item) s)))
                  (trim item) = false).
    { apply includesStr_not_In. intros A.
      apply (proj1 (proj2 (collect_and_drop_as_set item s NB))) in A.
      destruct A as [_ A]. contradiction. }
    rewrite H. reflexivity.
Qed.

Lemma collect_and_drop_idempotent_witness :
  inventory (nextState (interpretCommand (collectCommand (str "gem"))
               (nextState (interpretCommand (collectCommand (str "gem")) baseState))))
  = [str "gem"].
Proof.
  assert (NB : trim (str "gem") <> []) by (vm_compute; discriminate).
  rewrite (proj1 (collect_and_drop_idempotent (str "gem") baseState NB)). reflexivity.
Defined.

(** *** Turning and stepping *)

(** X15. The turn rule looks for left first, then right, then around.  For
    a normalized input that begins with turn and a space: if it contains
    left, the agent turns one step counter-clockwise and pays 2, whatever
    else the input contains; otherwise, if it contains right, the agent turns
    one step clockwise and pays 2; and if it contains none of left, right
    and around, the response asks for a direction and the state is returned
    as it was. *)
Theorem turn_command (input : jsstring) (s : AgentState) :
  startsWith (toLowerCase (trim input)) (str "turn ") = true ->
  (includes (toLowerCase (trim input)) (str "left") = true ->
   interpretCommand input s =
   {| response := str "Turned left. Heading "
                  ++ toUpperCase (headingName (counterClockwise (heading s))) ++ str ".";
      nextState := {| x := x s; y := y s; heading := counterClockwise (heading s);
                      energy := clampEnergy (energy s - 2);
                      inventory := inventory s; notes := notes s |} |})
  /\ (includes (toLowerCase (trim input)) (str "left") = false ->
      includes (toLowerCase (trim input)) (str "right") = true ->
      interpretCommand input s =
      {| response := str "Turned right. Heading "
                     ++ toUpperCase (headingName (clockwise (heading s))) ++ str ".";
         nextState := {| x := x s; y := y s; heading := clockwise (heading s);
                         energy := clampEnergy (energy s - 2);
                         inventory := inventory s; notes := notes s |} |})
  /\ (includes (toLowerCase (trim input)) (str "left") = false ->
      includes (toLowerCase (trim input)) (str "right") = false ->
      includes (toLowerCase (trim input)) (str "around") = false ->
      interpretCommand input s =
      {| response := str "Specify turn direction: left, right, or around.";
         nextState := s |}).
Proof.
  intros HT. destruct (startsWith_inv _ _ HT) as [r E].
  repeat split.
  - intros HL. unfold interpretCommand. cbv zeta. rewrite E in *.
    repeat decide_guard. rewrite HL, !nextHeading_Left. reflexivity.
  - intros HL HR. unfold interpretCommand. cbv zeta. rewrite E in *.
    repeat decide_guard. rewrite HL, HR, !nextHeading_Right. reflexivity.
  - intros HL HR HA. unfold interpretCommand. cbv zeta. rewrite E in *.
    repeat decide_guard. rewrite HL, HR, HA. reflexivity.
Qed.

Lemma turn_command_witness :
  interpretCommand (str "turn right, then left") baseState =
  {| response := str "Turned left. Heading WEST.";
     nextState := {| x := 3; y := 3; heading := west; energy := 78; inventory := [];
                     notes := [str "Calibrated and ready."] |} |}.
Proof.
  destruct (turn_command (str "turn right, then left") baseState eq_refl) as [L _].
  exact (L eq_refl).
Defined.

(** X16. Turns compose as rotations of the four headings.  [nextHeading] to
    the left undoes [nextHeading] to the right and the other way round, and
    four steps either way come back to the start.  On the agent: turn right
    followed by turn left, two turn around, and four turn right each give
    back the heading the agent had. *)
Theorem turns_compose (s : AgentState) :
  let turn (input : jsstring) (st : AgentState) := nextState (interpretCommand input st) in
  nextHeading (nextHeading (heading s) Right) Left = heading s
  /\ nextHeading (nextHeading (heading s) Left) Right = heading s
  /\ nextHeading (nextHeading (nextHeading (nextHeading (heading s) Right) Right) Right)
                 Right = heading s
  /\ nextHeading (nextHeading (nextHeading (nextHeading (heading s) Left) Left) Left)
                 Left = heading s
  /\ heading (turn (str "turn left") (turn (str "turn right") s)) = heading s
  /\ heading (turn (str "turn around") (turn (str "turn around") s)) = heading s
  /\ heading (turn (str "turn right") (turn (str "turn right") (turn (str "turn right")
               (turn (str "turn right") s)))) = heading s.
Proof.
  destruct s as [sx sy h e inv ns]. destruct h; repeat split; reflexivity.
Qed.

(** X17. One step ahead on the grid.  From a position on the grid,
    [moveForward] gives a position on the grid that differs from the current
    one by at most one cell, along the axis of the heading; it gives the
    current position exactly when the agent stands at the border it
    faces. *)
Theorem moveForward_one_step (s : AgentState) :
  onGrid s ->
  (0 <= fst (moveForward s) <= 6 /\ 0 <= snd (moveForward s) <= 6)
  /\ Z.abs (fst (moveForward s) - x s) + Z.abs (snd (moveForward s) - y s) <= 1
  /\ (moveForward s = (x s, y s) <->
      (heading s = north /\ y s = 6) \/ (heading s = south /\ y s = 0)
      \/ (heading s = east /\ x s = 6) \/ (heading s = west /\ x s = 0)).
Proof.
  unfold onGrid, moveForward, GRID_SIZE. intros [Hx Hy].
  destruct (heading s); cbn [fst snd]; repeat split; try lia.
  all: try (intros E; injection E as E; try lia).
  all: try (intros [[A B] | [[A B] | [[A B] | [A B]]]]; try discriminate; f_equal; lia).
  all: try (left; split; [reflexivity | lia]).
  all: try (right; left; split; [reflexivity | lia]).
  all: try (right; right; left; split; [reflexivity | lia]).
  all: try (right; right; right; split; [reflexivity | lia]).
Qed.

Lemma moveForward_one_step_witness :
  moveForward atWestBorder = (x atWestBorder, y atWestBorder).
Proof.
  assert (G : onGrid atWestBorder) by (unfold onGrid, GRID_SIZE; cbn; lia).
  apply (proj2 (proj2 (moveForward_one_step atWestBorder G))).
  right; right; right. split; reflexivity.
Defined.

(** *** The controller *)

Lemma last_cons_default {A : Type} (a d : A) (l : list A) : last (a :: l) d = last l a.
Proof.
  revert a d. induction l as [| b l IH]; intros a d; [reflexivity|].
  change (last (a :: b :: l) d) with (last (b :: l) d). rewrite !IH. reflexivity.
Qed.

Lemma runSubmissions_trace (us : list Submission) :
  forall ss,
  exists log,
    history (runSubmissions us ss) = history ss ++ log
    /\ isTrace (agentState ss) log
    /\ agentState (runSubmissions us ss) = lastState (agentState ss) log
    /\ map userCommand log = filter isSubmitted (map typed us)
    /\ map id log = map entryId (filter (fun u => isSubmitted (typed u)) us)
    /\ map timestamp log = map entryTime (filter (fun u => isSubmitted (typed u)) us).
Proof.
  induction us as [| u us IH]; intros ss.
  - exists []. cbn. rewrite app_nil_r. repeat split.
  - destruct (IH (submit ss u)) as [log [H1 [H2 [H3 [H4 [H5 H6]]]]]].
    change (runSubmissions (u :: us) ss) with (runSubmissions us (submit ss u)).
    assert (B' : isEmpty (trim (typed u)) = negb (isSubmitted (typed u)))
      by (unfold isSubmitted; rewrite negb_involutive; reflexivity).
    assert (S1 : history (submit ss u)
                 = if isSubmitted (typed u)
                   then history ss ++
                        [ {| id := entryId u; userCommand := typed u;
                             agentResponse :=
                               response (interpretCommand (typed u) (agentState ss));
                             stateAfter :=
                               nextState (interpretCommand (typed u) (agentState ss));
                             timestamp := entryTime u |} ]
                   else history ss).
    { unfold submit, handleSubmitSession, setCommand. cbn [command agentState history].
      rewrite B'. destruct (isSubmitted (typed u)); reflexivity. }
    assert (S2 : agentState (submit ss u)
                 = if isSubmitted (typed u)
                   then nextState (interpretCommand (typed u) (agentState ss))
                   else agentState ss).
    { unfold submit, handleSubmitSession, setCommand. cbn [command agentState history].
      rewrite B'. destruct (isSubmitted (typed u)); reflexivity. }
    rewrite S1 in H1. rewrite S2 in H2, H3. cbn [map filter].
    destruct (isSubmitted (typed u)).
    + eexists (_ :: log). rewrite H1, <- app_assoc. cbn [app].
      split; [reflexivity|].
      cbn [isTrace userCommand agentResponse stateAfter map id timestamp].
      unfold lastState in *. cbn [map stateAfter]. rewrite last_cons_default.
      repeat split; try assumption; f_equal; assumption.
    + exists log. repeat split; assumption.
Qed.

(** X18. The transcript is a faithful trace.  After any list of
    submissions from the initial session, the history is the boot entry
    followed by one entry for each submission that is not blank, in the order
    of submission, holding the text as typed, the identifier and the time
    given to it; each entry holds the interpreter's response and state for
    its text from the state of the entry before (the baseline for the first);
    and the state on display is the state of the last entry. *)
Theorem transcript_is_trace (us : list Submission) (bootId : jsstring) (now : Z) :
  exists log,
    history (runSubmissions us (initialSession bootId now))
    = history (initialSession bootId now) ++ log
    /\ isTrace baseState log
    /\ agentState (runSubmissions us (initialSession bootId now)) = lastState baseState log
    /\ map userCommand log = filter isSubmitted (map typed us)
    /\ map id log = map entryId (filter (fun u => isSubmitted (typed u)) us)
    /\ map timestamp log = map entryTime (filter (fun u => isSubmitted (typed u)) us).
Proof. apply (runSubmissions_trace us (initialSession bootId now)). Qed.

Lemma runSubmissions_state (us : list Submission) :
  forall ss, agentState (runSubmissions us ss) = runSession (map typed us) (agentState ss).
Proof.
  induction us as [| u us IH]; intros ss; [reflexivity|].
  change (runSubmissions (u :: us) ss) with (runSubmissions us (submit ss u)).
  rewrite IH. unfold runSession. cbn [map fold_left]. f_equal.
  unfold submit, handleSubmitSession, setCommand, handleSubmit. cbn [command agentState].
  destruct (isEmpty (trim (typed u))); reflexivity.
Qed.

(** X19. The history is append-only and the input field is cleared.  From
    any session, a list of submissions leaves the entries that were there in
    place and adds at most one entry for each submission; a blank submission
    adds nothing and changes no state; after a submission the input field is
    empty; and the state reached is the one the interpreter reaches on the
    typed texts. *)
Theorem history_append_only (us : list Submission) (ss : Session) :
  (exists log,
     history (runSubmissions us ss) = history ss ++ log
     /\ (List.length log <= List.length us)%nat)
  /\ agentState (runSubmissions us ss) = runSession (map typed us) (agentState ss)
  /\ (forall u, isSubmitted (typed u) = false ->
        agentState (submit ss u) = agentState ss /\ history (submit ss u) = history ss)
  /\ (forall u, command (submit ss u) = []).
Proof.
  split; [| split; [| split]].
  - destruct (runSubmissions_trace us ss) as [log [H1 [_ [_ [H4 _]]]]].
    exists log. split; [exact H1|].
    rewrite <- (length_map userCommand), H4, <- (length_map typed us).
    apply filter_length_le.
  - apply runSubmissions_state.
  - intros u H. unfold isSubmitted in H. apply negb_false_iff in H.
    unfold submit, handleSubmitSession, setCommand. cbn [command]. rewrite H.
    split; reflexivity.
  - intros u. unfold submit, handleSubmitSession, setCommand. cbn [command].
    destruct (isEmpty (trim (typed u))); reflexivity.
Qed.

(** *** The dashboard *)

Lemma slice_last_three {A : Type} (l : list A) :
  slice l (-3) = skipn (List.length l - 3) l.
Proof.
  unfold slice. cbn [Z.ltb Z.compare]. f_equal. lia.
Qed.

Lemma mapIndexFrom_length {A B : Type} (f : A -> Z -> B) (l : list A) :
  forall i, List.length (mapIndexFrom f i l) = List.length l.
Proof.
  induction l as [| a l IH]; intros i; cbn; [reflexivity | rewrite IH; reflexivity].
Qed.

Lemma mapIndexFrom_nth {A B : Type} (f : A -> Z -> B) (l : list A) (da : A) (db : B) :
  forall i k, (k < List.length l)%nat ->
  nth k (mapIndexFrom f i l) db = f (nth k l da) (i + Z.of_nat k).
Proof.
  induction l as [| a l IH]; intros i k Hk; cbn in Hk; [lia|].
  destruct k as [| k]; cbn [mapIndexFrom nth].
  - f_equal. lia.
  - rewrite IH by lia. f_equal. lia.
Qed.

(** X20. The notes preview shows the last three notes (all of them when
    there are fewer), each under the number of its place in the whole list of
    notes, counted from 1. *)
Theorem notes_preview_numbers (s : AgentState) (k : nat) :
  (k < Nat.min 3 (List.length (notes s)))%nat ->
  List.length (notesPreviewLines s) = Nat.min 3 (List.length (notes s))
  /\ nth k (notesPreviewLines s) []
     = numToString (Z.of_nat (List.length (notes s) - Nat.min 3 (List.length (notes s)) + k) + 1)
       ++ str ". "
       ++ nth (List.length (notes s) - Nat.min 3 (List.length (notes s)) + k) (notes s) [].
Proof.
  intros Hk. unfold notesPreviewLines, jsstring in *.
  rewrite slice_last_three. split.
  - rewrite mapIndexFrom_length, length_skipn. lia.
  - rewrite (mapIndexFrom_nth _ _ [] []) by (rewrite length_skipn; lia).
    rewrite nth_skipn.
    f_equal; [f_equal; lia | f_equal; f_equal; lia].
Qed.

Lemma notes_preview_numbers_witness :
  nth 1 (notesPreviewLines
           (runSession [str "note a"; str "note b"; str "note c"; str "note d"] baseState)) []
  = str "4. c".
Proof.
  assert (H : (1 < Nat.min 3 (List.length (notes
                 (runSession [str "note a"; str "note b"; str "note c"; str "note d"]
                             baseState))))%nat) by (vm_compute; lia).
  destruct (notes_preview_numbers
              (runSession [str "note a"; str "note b"; str "note c"; str "note d"]
                          baseState) 1 H) as [_ E].
  rewrite E. reflexivity.
Defined.

Lemma tacticalMap_cells (s : AgentState) :
  tacticalMap s =
  map (fun row =>
         map (fun column =>
                {| key := numToString row ++ str "-" ++ numToString column;
                   isAgent := (x s =? column) && (y s =? row);
                   label := if (x s =? column) && (y s =? row)
                            then toUpperCase (sliceTo (headingName (heading s)) 0 1)
                            else numToString column ++ str "," ++ numToString row |})
             [0; 1; 2; 3; 4; 5; 6])
      [6; 5; 4; 3; 2; 1; 0].
Proof. reflexivity. Qed.

Lemma heading_letter (h : Heading) :
  toUpperCase (sliceTo (headingName h) 0 1) = headingLetter h.
Proof. destruct h; reflexivity. Qed.

(** X21. The tactical map has seven rows of seven cells, the top row being
    y = 6.  When the agent is on the grid, exactly one cell is drawn as the
    agent: the cell of column x in the row of y, and it shows the first letter
    of the heading, in upper case.  When the agent is not on the grid, no
    cell is drawn as the agent. *)
Theorem map_shows_agent_once (s : AgentState) :
  List.length (tacticalMap s) = 7%nat
  /\ Forall (fun row => List.length row = 7%nat) (tacticalMap s)
  /\ (onGrid s ->
      List.length (filter isAgent (List.concat (tacticalMap s))) = 1%nat
      /\ nth (Z.to_nat (x s)) (nth (Z.to_nat (6 - y s)) (tacticalMap s) []) noCell
         = {| key := numToString (y s) ++ str "-" ++ numToString (x s);
              isAgent := true;
              label := headingLetter (heading s) |})
  /\ (~ onGrid s -> filter isAgent (List.concat (tacticalMap s)) = []).
Proof.
  rewrite tacticalMap_cells.
  split; [reflexivity|]. split; [repeat constructor|].
  destruct s as [sx sy h e inv ns]. unfold onGrid, GRID_SIZE. cbn [x y heading].
  split.
  - intros [Hx Hy]. rewrite heading_letter.
    assert (Cx : sx = 0 \/ sx = 1 \/ sx = 2 \/ sx = 3 \/ sx = 4 \/ sx = 5 \/ sx = 6) by lia.
    assert (Cy : sy = 0 \/ sy = 1 \/ sy = 2 \/ sy = 3 \/ sy = 4 \/ sy = 5 \/ sy = 6) by lia.
    destruct Cx as [-> | [-> | [-> | [-> | [-> | [-> | ->]]]]]];
      destruct Cy as [-> | [-> | [-> | [-> | [-> | [-> | ->]]]]]];
      split; reflexivity.
  - intros H. cbn [map List.concat app].
    assert (Off : (forall c, 0 <= c <= 6 -> (sx =? c) = false)
                  \/ (forall r, 0 <= r <= 6 -> (sy =? r) = false)).
    { destruct (Z.lt_ge_cases sx 0); [left; intros c Hc; apply Z.eqb_neq; lia|].
      destruct (Z.lt_ge_cases 6 sx); [left; intros c Hc; apply Z.eqb_neq; lia|].
      right. intros r Hr. apply Z.eqb_neq. lia. }
    destruct Off as [Ox | Oy].
    + rewrite !Ox by lia. reflexivity.
    + rewrite !Oy by lia. rewrite !andb_false_r. reflexivity.
Qed.

(** *** The status line *)

Lemma str_inj (a b : string) : str a = str b -> a = b.
Proof.
  unfold str. revert b.
  induction a as [| c a IH]; intros [| d b] H; cbn in H; try discriminate.
  - reflexivity.
  - injection H as Hc Hr. f_equal; [| apply IH, Hr].
    rewrite <- (ascii_N_embedding c), <- (ascii_N_embedding d), Hc. reflexivity.
Qed.

Lemma numToString_inj (a b : Z) : numToString a = numToString b -> a = b.
Proof.
  unfold numToString. intros H. apply str_inj in H.
  rewrite <- (DecimalZ.of_to a), <- (DecimalZ.of_to b). f_equal.
  assert (E : NilEmpty.int_of_string (NilEmpty.string_of_int (Z.to_int a))
              = NilEmpty.int_of_string (NilEmpty.string_of_int (Z.to_int b)))
    by (rewrite H; reflexivity).
  rewrite !NilEmpty.isi in E. injection E as E. exact E.
Qed.

Lemma string_of_uint_units (d : Decimal.uint) :
  Forall isNumberUnit (str (NilEmpty.string_of_uint d)).
Proof.
  induction d; cbn; constructor; try assumption; right; cbn; lia.
Qed.

Lemma numToString_units (z : Z) : Forall isNumberUnit (numToString z).
Proof.
  unfold numToString. destruct (Z.to_int z) as [d | d]; cbn.
  - apply string_of_uint_units.
  - constructor; [left; reflexivity | apply string_of_uint_units].
Qed.

(** Two texts cut at the first occurrence of a separator that occurs in
    neither of the parts before it. *)
Lemma cut_at_separator (d : N) (a a' r r' : jsstring) :
  ~ In d a -> ~ In d a' -> a ++ d :: r = a' ++ d :: r' -> a = a' /\ r = r'.
Proof.
  revert a'. induction a as [| c a IH]; intros [| c' a'] Ha Ha' E; cbn in E.
  - injection E as E. split; [reflexivity | exact E].
  - injection E as E1 E2. subst c'. exfalso. apply Ha'. left. reflexivity.
  - injection E as E1 E2. subst c. exfalso. apply Ha. left. reflexivity.
  - injection E as E1 E2. subst c'.
    destruct (IH a') as [-> ->]; try exact E2.
    + intros H. apply Ha. right. exact H.
    + intros H. apply Ha'. right. exact H.
    + split; reflexivity.
Qed.

Lemma number_has_no (d : N) (z : Z) :
  ~ isNumberUnit d -> ~ In d (numToString z).
Proof.
  intros Hd H. apply Hd.
  apply (proj1 (Forall_forall _ _) (numToString_units z) d H).
Qed.

Lemma formatState_inj (s1 s2 : AgentState) :
  formatState s1 = formatState s2 ->
  x s1 = x s2 /\ y s1 = y s2 /\ heading s1 = heading s2 /\ energy s1 = energy s2.
Proof.
  unfold formatState. intros E.
  apply app_inv_head in E.
  apply (cut_at_separator 44%N) in E;
    [| apply number_has_no; unfold isNumberUnit; lia
     | apply number_has_no; unfold isNumberUnit; lia].
  destruct E as [Ex E]. injection E as E.
  apply (cut_at_separator 41%N) in E;
    [| apply number_has_no; unfold isNumberUnit; lia
     | apply number_has_no; unfold isNumberUnit; lia].
  destruct E as [Ey E].
  apply numToString_inj in Ex, Ey.
  assert (Eh : heading s1 = heading s2 /\ numToString (energy s1) = numToString (energy s2)).
  { destruct (heading s1), (heading s2); cbn in E; try discriminate;
      (split; [reflexivity|]);
      repeat (injection E as E); apply app_inv_tail in E; exact E. }
  destruct Eh as [Eh Ee]. apply numToString_inj in Ee.
  repeat split; assumption.
Qed.

(** X22. The status line.  When the normalized input is one of the status
    words, the response is the status line of the state and the state is
    returned as it was.  The status line tells the position, the heading and
    the energy apart: two states with the same status line agree on all
    four. *)
Theorem status_line_identifies_state (input : jsstring) (s s' : AgentState) :
  In (toLowerCase (trim input)) statusWords ->
  interpretCommand input s = {| response := formatState s; nextState := s |}
  /\ (response (interpretCommand input s) = response (interpretCommand input s') ->
      x s = x s' /\ y s = y s' /\ heading s = heading s' /\ energy s = energy s').
Proof.
  intros HW.
  assert (R : forall st,
             interpretCommand input st = {| response := formatState st; nextState := st |}).
  { intros st. unfold interpretCommand. cbv zeta.
    cbn in HW. destruct HW as [<- | [<- | [<- | []]]]; repeat decide_guard; reflexivity. }
  split; [apply R|]. rewrite !R. cbn [response]. apply formatState_inj.
Qed.

Lemma status_line_identifies_state_witness :
  interpretCommand (str "Status") baseState =
  {| response := str "Position (3, 3) " ++ [middot] ++ str " Heading NORTH " ++ [middot]
                 ++ str " Energy 80%";
     nextState := baseState |}.
Proof.
  destruct (status_line_identifies_state (str "Status") baseState baseState) as [R _].
  - left. reflexivity.
  - exact R.
Defined.

(** *** Letter case *)


